(** * Risk modelling service

    A shallow embedding of
    [backend/app/services/ml/risk_modeling_service.py]
    ([RiskModelingService]) and of the two ORM tables it reads and
    writes ([backend/app/models/ai_model.py]), followed by the properties
    of the risk-scoring and simulation engine.

    Conventions of the embedding.

    - Python [float] values are exact rationals ([Q]); a float that may be
      NaN is a [pyfloat].  Equality of rationals is [==] ([Qeq]).  The
      scorer, [np.mean], [np.percentile], VaR and CVaR are also given with
      every operation rounded to binary64 (section "Binary64 evaluation"),
      for the inputs on which the rounding changes the result.
    - The SQLAlchemy session is an explicit [database] value that every
      service method receives and returns; a raised exception is the left
      summand of the result.
    - [uuid.uuid4()], [datetime.utcnow()] and the NumPy pieces that are not
      arithmetic on rationals (the generator behind [np.random], [np.std])
      are inputs of the methods, gathered in [environment]. *)

From Stdlib Require Import ZArith QArith Qround Qabs Qpower.
From Stdlib Require Import List String Bool Lia Lqa Sorted Permutation.
Import ListNotations.

Local Open Scope string_scope.
Local Open Scope list_scope.
Local Open Scope Q_scope.

(** ** Python built-ins on numbers *)

Module Py.

Definition ltb (x y : Q) : bool := negb (Qle_bool y x).
Definition leb (x y : Q) : bool := Qle_bool x y.

(** [int(x)] on a float: truncation toward zero. *)
Definition int (x : Q) : Z :=
  if Qle_bool 0 x then Qfloor x else Qceiling x.

(** [round(x)] with one argument: nearest integer, ties to even. *)
Definition round (x : Q) : Z :=
  let f := Qfloor x in
  match Qcompare (x - inject_Z f) (1 # 2) with
  | Lt => f
  | Gt => (f + 1)%Z
  | Eq => if Z.even f then f else (f + 1)%Z
  end.

(** [max(a, b)] and [min(a, b)]: the first argument wins a tie. *)
Definition max (a b : Q) : Q := if ltb a b then b else a.
Definition min (a b : Q) : Q := if ltb b a then b else a.

(** Truth value of an optional number: [None], [0] and [0.0] are falsy. *)
Definition truthy (x : option Q) : bool :=
  match x with
  | Some q => negb (Qeq_bool q 0)
  | None => false
  end.

(** [x or d] where [x] is a nullable numeric column. *)
Definition or_ (x : option Q) (d : Q) : Q :=
  match x with
  | Some q => if Qeq_bool q 0 then d else q
  | None => d
  end.

End Py.

(** ** Enumerations of the data model *)

Inductive risk_tier := TIER_1 | TIER_2 | TIER_3 | TIER_4 | TIER_5.
Inductive risk_trend := IMPROVING | STABLE | DETERIORATING.
Inductive risk_type := DEFAULT_RISK | FUND_PERFORMANCE_RISK | LIQUIDITY_RISK.

Definition risk_type_eqb (a b : risk_type) : bool :=
  match a, b with
  | DEFAULT_RISK, DEFAULT_RISK => true
  | FUND_PERFORMANCE_RISK, FUND_PERFORMANCE_RISK => true
  | LIQUIDITY_RISK, LIQUIDITY_RISK => true
  | _, _ => false
  end.

(** ** The feature dictionary of the default-risk path *)

Record risk_features := {
  late_payment_count : Q;
  missed_payment_count : Q;
  on_time_payment_rate : Q;
  avg_payment_delay_days : Q;
  current_balance : Q;
  account_growth_rate : Q;
  leverage_ratio : Q;
  liquidity_risk : Q;
  recent_sentiment_score : Q;
  sentiment_trend : Q;
  communication_frequency : Q;
  portfolio_concentration : Q;
  portfolio_volatility : Q;
  diversification_score : Q
}.

(** [_generate_default_risk_features] *)
Definition _generate_default_risk_features : risk_features := {|
  late_payment_count := 1;
  missed_payment_count := 0;
  on_time_payment_rate := 0.9;
  avg_payment_delay_days := 1.5;
  current_balance := 1000000;
  account_growth_rate := 0.08;
  leverage_ratio := 0.3;
  liquidity_risk := 0.15;
  recent_sentiment_score := 0.6;
  sentiment_trend := 0;
  communication_frequency := 5;
  portfolio_concentration := 0.4;
  portfolio_volatility := 0.18;
  diversification_score := 0.7
|}.

(** ** RiskScorer *)

(** [_predict_default_risk]: returns [(risk_probability, risk_score)]. *)
Definition _predict_default_risk (features : risk_features) : Q * Z :=
  let late_payment_score := late_payment_count features * 5 in
  let missed_payment_score := missed_payment_count features * 15 in
  let on_time_bonus := (1 - on_time_payment_rate features) * 30 in
  let leverage_score := leverage_ratio features * 20 in
  let sentiment_score :=
    Py.max 0 (0.5 - recent_sentiment_score features) * 25 in
  let risk_score :=
    Py.min 100 (late_payment_score + missed_payment_score +
                on_time_bonus + leverage_score + sentiment_score) in
  let risk_probability := risk_score / 100 * 0.25 in
  (risk_probability, Py.int risk_score).

(** Names for the intermediate values of [_predict_default_risk]: its five
    summands in source order, and the capped sum it passes to [int]. *)
Definition contributions (features : risk_features) : list Q :=
  [ late_payment_count features * 5;
    missed_payment_count features * 15;
    (1 - on_time_payment_rate features) * 30;
    leverage_ratio features * 20;
    Py.max 0 (0.5 - recent_sentiment_score features) * 25 ].

Definition raw_score (features : risk_features) : Q :=
  Py.min 100 (late_payment_count features * 5 +
              missed_payment_count features * 15 +
              (1 - on_time_payment_rate features) * 30 +
              leverage_ratio features * 20 +
              Py.max 0 (0.5 - recent_sentiment_score features) * 25).

(** [_calculate_risk_tier] *)
Definition _calculate_risk_tier (risk_probability : Q) : risk_tier :=
  if Py.ltb risk_probability 0.02 then TIER_1
  else if Py.ltb risk_probability 0.05 then TIER_2
  else if Py.ltb risk_probability 0.10 then TIER_3
  else if Py.ltb risk_probability 0.20 then TIER_4
  else TIER_5.

(** ** Exceptions and the service monad *)

Inductive exn :=
| ValueError (msg : string)
| TypeError (msg : string)
| ZeroDivisionError (msg : string).

(** ** The tables the service touches *)

(** [AIModel], restricted to the columns the service reads. *)
Record AIModel := {
  model_id : string;
  status : string;
  version : string
}.

(** [FeatureStore], restricted to the columns the service reads.  Every
    feature column is nullable. *)
Record FeatureStore := {
  feature_timestamp : Z;
  entity_type : string;
  entity_id : string;
  fs_late_payment_count : option Q;
  fs_missed_payment_count : option Q;
  fs_on_time_payment_rate : option Q;
  fs_avg_payment_delay_days : option Q;
  fs_current_balance : option Q;
  fs_account_growth_rate : option Q;
  fs_leverage_ratio : option Q;
  fs_liquidity_risk : option Q;
  fs_recent_sentiment_score : option Q;
  fs_sentiment_trend : option Q;
  fs_communication_frequency : option Q;
  fs_portfolio_concentration : option Q;
  fs_portfolio_volatility : option Q;
  fs_diversification_score : option Q
}.

(** A float that may be NaN (the fund path can produce one). *)
Inductive pyfloat := Fin (q : Q) | NaN.

Record risk_factor := { factor : string; weight : Q }.

Record contributing_metrics_t := {
  cm_var_95 : pyfloat;
  cm_cvar_95 : pyfloat;
  cm_volatility : pyfloat;
  cm_max_drawdown : pyfloat
}.

(** [RiskPrediction]: a row of [ai_predictions_risk]. *)
Record RiskPrediction := {
  prediction_id : string;
  rp_model_id : string;
  rp_risk_type : risk_type;
  risk_horizon : string;
  investor_id : option string;
  fund_id : option string;
  risk_probability : pyfloat;
  rp_risk_tier : option risk_tier;
  risk_score : Z;
  previous_risk_score : option Z;
  rp_risk_trend : option risk_trend;
  trend_magnitude : option Z;
  top_risk_factors : list risk_factor;
  contributing_metrics : option contributing_metrics_t;
  estimated_loss_exposure : option Q;
  exposure_percentage : option Q;
  recommended_actions : list string;
  prediction_timestamp : Z
}.

Record database := {
  ai_models : list AIModel;
  feature_store : list FeatureStore;
  ai_predictions_risk : list RiskPrediction
}.

(** The process-wide NumPy generator, seen as the stream of standard normal
    deviates it will hand out next. *)
Definition rng_state := nat -> Q.

Record world := { db : database; rng : rng_state }.

Definition M (A : Type) : Type := world -> (exn + A) * world.

Definition ret {A} (a : A) : M A := fun w => (inr a, w).

Definition raise {A} (e : exn) : M A := fun w => (inl e, w).

Definition bind {A B} (m : M A) (k : A -> M B) : M B :=
  fun w =>
    match m w with
    | (inl e, w') => (inl e, w')
    | (inr a, w') => k a w'
    end.

Notation "x <- m ;; k" := (bind m (fun x => k))
  (at level 61, m at next level, right associativity).
Notation "m ;;; k" := (bind m (fun _ => k))
  (at level 61, right associativity).

(** A computation that may raise but touches neither session nor generator. *)
Definition lift {A} (r : exn + A) : M A := fun w => (r, w).

(** [self.db.query(...)...]: a read of the session. *)
Definition query {A} (f : database -> A) : M A :=
  fun w => (inr (f (db w)), w).

(** [self.db.add(prediction); self.db.commit(); self.db.refresh(prediction)] *)
Definition db_add_commit (prediction : RiskPrediction) : M unit :=
  fun w =>
    let d := db w in
    (inr tt,
     {| db := {| ai_models := ai_models d;
                 feature_store := feature_store d;
                 ai_predictions_risk := ai_predictions_risk d ++ [prediction] |};
        rng := rng w |}).

(** [.first()] *)
Definition first {A} (rows : list A) : option A := hd_error rows.

(** [.offset(k)] *)
Definition offset {A} (k : nat) (rows : list A) : list A := skipn k rows.

(** [.order_by(key.desc())]: rows by decreasing key; rows with equal keys
    keep their table order. *)
Fixpoint insert_desc {A} (key : A -> Z) (x : A) (rows : list A) : list A :=
  match rows with
  | [] => [x]
  | y :: rows' =>
      if (key y <=? key x)%Z then x :: rows
      else y :: insert_desc key x rows'
  end.

Definition order_by_desc {A} (key : A -> Z) (rows : list A) : list A :=
  fold_right (insert_desc key) [] rows.

Definition opt_string_eqb (a : option string) (b : string) : bool :=
  match a with
  | Some s => String.eqb s b
  | None => false
  end.

(** ** The service: construction and per-call inputs *)

(** [__init__] *)
Definition default_risk_model_id : string := "DEFAULT_RISK_NN_V2.3".
Definition fund_risk_model_id : string := "FUND_RISK_MC_V1.5".

(** The NumPy routines whose values are not rational arithmetic on their
    arguments.  [seeded s i] is the [i]-th standard normal deviate the
    generator yields after [np.random.seed(s)]; [std] is [np.std] on a
    non-empty array of finite values; [percentile_of_empty] is what
    [np.percentile] answers on an array of size zero, which depends on the
    NumPy release. *)
Record numpy := {
  seeded : Z -> nat -> Q;
  std : list Q -> Q;
  percentile_of_empty : exn + pyfloat
}.

(** What one call reads from outside the session: the [numpy] module, the
    hexadecimal digits of [uuid.uuid4()] and [datetime.utcnow()]. *)
Record environment := {
  np : numpy;
  uuid4_hex : string;
  utcnow : Z
}.

(** ** FeatureProvider *)

Definition latest_feature_record (d : database) (etype eid : string)
  : option FeatureStore :=
  first (order_by_desc feature_timestamp
           (filter (fun r => String.eqb (entity_type r) etype
                             && String.eqb (entity_id r) eid)
                   (feature_store d))).

(** [_extract_risk_features] *)
Definition _extract_risk_features (d : database) (investor : string)
  : risk_features :=
  match latest_feature_record d "INVESTOR" investor with
  | None => _generate_default_risk_features
  | Some feature_record => {|
      late_payment_count := Py.or_ (fs_late_payment_count feature_record) 0;
      missed_payment_count := Py.or_ (fs_missed_payment_count feature_record) 0;
      on_time_payment_rate := Py.or_ (fs_on_time_payment_rate feature_record) 0.9;
      avg_payment_delay_days := Py.or_ (fs_avg_payment_delay_days feature_record) 1.5;
      current_balance := Py.or_ (fs_current_balance feature_record) 1000000;
      account_growth_rate := Py.or_ (fs_account_growth_rate feature_record) 0.08;
      leverage_ratio := Py.or_ (fs_leverage_ratio feature_record) 0.3;
      liquidity_risk := Py.or_ (fs_liquidity_risk feature_record) 0.15;
      recent_sentiment_score := Py.or_ (fs_recent_sentiment_score feature_record) 0.6;
      sentiment_trend := Py.or_ (fs_sentiment_trend feature_record) 0;
      communication_frequency := Py.or_ (fs_communication_frequency feature_record) 5;
      portfolio_concentration := Py.or_ (fs_portfolio_concentration feature_record) 0.4;
      portfolio_volatility := Py.or_ (fs_portfolio_volatility feature_record) 0.18;
      diversification_score := Py.or_ (fs_diversification_score feature_record) 0.7
    |}
  end.

(** ** TrendTracker *)

(** The query of [_calculate_risk_trend]: the investor's [DEFAULT_RISK]
    rows, newest first, after [.offset(1)]. *)
Definition previous_prediction_query (d : database) (investor : string)
  : option RiskPrediction :=
  first (offset 1
           (order_by_desc prediction_timestamp
              (filter (fun p => opt_string_eqb (investor_id p) investor
                                && risk_type_eqb (rp_risk_type p) DEFAULT_RISK)
                      (ai_predictions_risk d)))).

(** [_calculate_risk_trend] *)
Definition _calculate_risk_trend (d : database) (investor : string)
    (current_score : Z) : Z * risk_trend :=
  match previous_prediction_query d investor with
  | None => (current_score, STABLE)
  | Some previous_prediction =>
      let previous_score := risk_score previous_prediction in
      let diff := (current_score - previous_score)%Z in
      let trend :=
        if (5 <? diff)%Z then DETERIORATING
        else if (diff <? -5)%Z then IMPROVING
        else STABLE in
      (previous_score, trend)
  end.

(** ** Risk factors, loss exposure, recommendations *)

(** [_identify_risk_factors] *)
Definition _identify_risk_factors (features : risk_features)
  : list risk_factor :=
  let factors :=
    (if Py.ltb 2 (late_payment_count features)
     then [ {| factor := "recent_payment_delays"; weight := 0.28 |} ] else [])
    ++ (if Py.ltb (account_growth_rate features) 0
        then [ {| factor := "account_balance_decline"; weight := 0.22 |} ] else [])
    ++ (if Py.ltb (recent_sentiment_score features) 0.3
        then [ {| factor := "communication_sentiment_negative"; weight := 0.18 |} ]
        else [])
    ++ (if Py.ltb 0.5 (leverage_ratio features)
        then [ {| factor := "high_leverage_ratio"; weight := 0.15 |} ] else []) in
  let factors :=
    match factors with
    | [] => [ {| factor := "portfolio_volatility"; weight := 0.20 |};
              {| factor := "market_conditions"; weight := 0.15 |} ]
    | _ => factors
    end in
  firstn 5 factors.

Record loss_exposure_t := { amount : Q; percentage : Q }.

(** [_calculate_loss_exposure].  The balance is read without [or]: a row
    whose [current_balance] is NULL makes the product a [TypeError]. *)
Definition _calculate_loss_exposure (d : database) (investor : string)
    (risk_probability : Q) : exn + loss_exposure_t :=
  let balance :=
    match latest_feature_record d "INVESTOR" investor with
    | Some feature_record => fs_current_balance feature_record
    | None => Some 1000000
    end in
  let total_portfolio := 15000000 in
  match balance with
  | None => inl (TypeError "unsupported operand type(s) for *: 'NoneType' and 'float'")
  | Some balance =>
      let loss_exposure := balance * risk_probability in
      let exposure_pct := (loss_exposure / total_portfolio) * 100 in
      inr {| amount := loss_exposure; percentage := exposure_pct |}
  end.

Definition has_factor (name : string) (factors : list risk_factor) : bool :=
  existsb (fun f => String.eqb (factor f) name) factors.

(** [_generate_risk_recommendations] *)
Definition _generate_risk_recommendations (tier : risk_tier)
    (factors : list risk_factor) : list string :=
  let recommendations :=
    (match tier with
     | TIER_4 | TIER_5 =>
         [ "Increase monitoring frequency to weekly";
           "Schedule relationship manager call";
           "Review account covenants" ]
     | _ => []
     end)
    ++ (if has_factor "recent_payment_delays" factors
        then [ "Investigate payment processing issues" ] else [])
    ++ (if has_factor "communication_sentiment_negative" factors
        then [ "Proactive outreach to address concerns" ] else []) in
  match recommendations with
  | [] => [ "Continue standard monitoring" ]
  | _ => recommendations
  end.

(** ** [assess_investor_default_risk] *)

Definition find_production_model (d : database) (mid : string)
  : option AIModel :=
  first (filter (fun m => String.eqb (model_id m) mid
                          && String.eqb (status m) "PRODUCTION")
                (ai_models d)).

Record risk_trend_payload := {
  rt_previous_score : option Z;
  rt_trend : risk_trend;
  rt_magnitude : Z;
  rt_trend_period : string
}.

Record default_risk_response := {
  dr_prediction_id : string;
  dr_investor_id : string;
  dr_risk_type : risk_type;
  dr_risk_horizon : string;
  dr_default_probability : Q;
  dr_risk_tier : risk_tier;
  dr_risk_score : Z;
  dr_risk_trend : risk_trend_payload;
  dr_top_risk_factors : list risk_factor;
  dr_estimated_loss_exposure : loss_exposure_t;
  dr_recommended_actions : list string;
  dr_model_version : string;
  dr_prediction_timestamp : Z
}.

(** [abs(risk_score - previous_score) if previous_score else 0] *)
Definition magnitude (score : Z) (previous_score : option Z) : Z :=
  match previous_score with
  | Some p => if (p =? 0)%Z then 0%Z else Z.abs (score - p)
  | None => 0%Z
  end.

Definition assess_investor_default_risk (env : environment)
    (investor : string) (horizon : string) (include_trend : bool)
  : M default_risk_response :=
  model <- query (fun d => find_production_model d default_risk_model_id) ;;
  match model with
  | None =>
      raise (ValueError
               (String.append "Default risk model "
                  (String.append default_risk_model_id " not found")))
  | Some model =>
      features <- query (fun d => _extract_risk_features d investor) ;;
      let '(risk_probability, score) := _predict_default_risk features in
      let tier := _calculate_risk_tier risk_probability in
      trend_pair <-
        (if include_trend
         then query (fun d =>
                let '(p, t) := _calculate_risk_trend d investor score in
                (Some p, t))
         else ret (None, STABLE)) ;;
      let '(previous_score, trend) := trend_pair in
      let factors := _identify_risk_factors features in
      exposure <- bind (query (fun d =>
                    _calculate_loss_exposure d investor risk_probability)) lift ;;
      let recommendations := _generate_risk_recommendations tier factors in
      let prediction := {|
        prediction_id :=
          String.append "PRED_RISK_" (String.substring 0 12 (uuid4_hex env));
        rp_model_id := model_id model;
        rp_risk_type := DEFAULT_RISK;
        risk_horizon := horizon;
        investor_id := Some investor;
        fund_id := None;
        risk_probability := Fin risk_probability;
        rp_risk_tier := Some tier;
        risk_score := score;
        previous_risk_score := previous_score;
        rp_risk_trend := Some trend;
        trend_magnitude := Some (magnitude score previous_score);
        top_risk_factors := factors;
        contributing_metrics := None;
        estimated_loss_exposure := Some (amount exposure);
        exposure_percentage := Some (percentage exposure);
        recommended_actions := recommendations;
        prediction_timestamp := utcnow env
      |} in
      db_add_commit prediction ;;;
      ret {|
        dr_prediction_id := prediction_id prediction;
        dr_investor_id := investor;
        dr_risk_type := DEFAULT_RISK;
        dr_risk_horizon := horizon;
        dr_default_probability := risk_probability;
        dr_risk_tier := tier;
        dr_risk_score := score;
        dr_risk_trend := {|
          rt_previous_score := previous_score;
          rt_trend := trend;
          rt_magnitude := magnitude score previous_score;
          rt_trend_period := "30_days"
        |};
        dr_top_risk_factors := factors;
        dr_estimated_loss_exposure := exposure;
        dr_recommended_actions := recommendations;
        dr_model_version := version model;
        dr_prediction_timestamp := prediction_timestamp prediction
      |}
  end.

(** ** Float arithmetic with NaN *)

Definition fadd (a b : pyfloat) : pyfloat :=
  match a, b with Fin x, Fin y => Fin (x + y) | _, _ => NaN end.

Definition fsub (a b : pyfloat) : pyfloat :=
  match a, b with Fin x, Fin y => Fin (x - y) | _, _ => NaN end.

Definition fmul (a b : pyfloat) : pyfloat :=
  match a, b with Fin x, Fin y => Fin (x * y) | _, _ => NaN end.

(** Python float division: a zero divisor raises, whatever the dividend. *)
Definition fdiv (a b : pyfloat) : exn + pyfloat :=
  match b with
  | Fin y =>
      if Qeq_bool y 0 then inl (ZeroDivisionError "float division by zero")
      else match a with Fin x => inr (Fin (x / y)) | NaN => inr NaN end
  | NaN => inr NaN
  end.

(** Comparisons: any comparison with NaN is false. *)
Definition fltb (a b : pyfloat) : bool :=
  match a, b with Fin x, Fin y => Py.ltb x y | _, _ => false end.

Definition fleb (a b : pyfloat) : bool :=
  match a, b with Fin x, Fin y => Py.leb x y | _, _ => false end.

(** [int(x)] on a float that may be NaN. *)
Definition fint (a : pyfloat) : exn + Z :=
  match a with
  | Fin x => inr (Py.int x)
  | NaN => inl (ValueError "cannot convert float NaN to integer")
  end.

(** ** NumPy reductions *)

Definition ndarray := list pyfloat.

(** The values of an array without NaN; [None] when it holds one. *)
Fixpoint finite_values (a : ndarray) : option (list Q) :=
  match a with
  | [] => Some []
  | Fin q :: a' => option_map (cons q) (finite_values a')
  | NaN :: _ => None
  end.

Definition Qsum (l : list Q) : Q := fold_right Qplus 0 l.

Definition Qlen (l : list Q) : Q := inject_Z (Z.of_nat (List.length l)).

(** Arithmetic mean; the mean of nothing is NaN. *)
Definition mean (l : list Q) : pyfloat :=
  match l with
  | [] => NaN
  | _ => Fin (Qsum l / Qlen l)
  end.

(** [np.mean] *)
Definition np_mean (a : ndarray) : pyfloat :=
  match finite_values a with
  | Some l => mean l
  | None => NaN
  end.

Fixpoint Qminimum (x : Q) (l : list Q) : Q :=
  match l with
  | [] => x
  | y :: l' => Qminimum (if Py.ltb y x then y else x) l'
  end.

(** [np.min] *)
Definition np_min (a : ndarray) : exn + pyfloat :=
  match a with
  | [] => inl (ValueError "zero-size array to reduction operation minimum which has no identity")
  | _ =>
      match finite_values a with
      | Some (x :: l) => inr (Fin (Qminimum x l))
      | _ => inr NaN
      end
  end.

(** [np.std] *)
Definition np_std (n : numpy) (a : ndarray) : pyfloat :=
  match a with
  | [] => NaN
  | _ =>
      match finite_values a with
      | Some l => Fin (std n l)
      | None => NaN
      end
  end.

(** Ascending sort of the sample array. *)
Fixpoint insert_asc (x : Q) (l : list Q) : list Q :=
  match l with
  | [] => [x]
  | y :: l' => if Qle_bool x y then x :: l else y :: insert_asc x l'
  end.

Definition sort_asc (l : list Q) : list Q := fold_right insert_asc [] l.

(** Linear interpolation between the two order statistics around the
    virtual index [h] of a sorted array. *)
Definition lerp_at (sorted : list Q) (h : Q) : Q :=
  let previous := Z.to_nat (Qfloor h) in
  let next := Nat.min (previous + 1) (List.length sorted - 1) in
  let gamma := h - inject_Z (Qfloor h) in
  let a := nth previous sorted 0 in
  let b := nth next sorted 0 in
  a + (b - a) * gamma.

(** [np.percentile] with the default method ("linear") on finite values:
    virtual index [(n - 1) * q / 100]. *)
Definition percentile_linear (l : list Q) (q : Q) : Q :=
  lerp_at (sort_asc l) (inject_Z (Z.of_nat (List.length l - 1)) * (q / 100)).

(** [np.percentile] *)
Definition np_percentile (n : numpy) (a : ndarray) (q : Q) : exn + pyfloat :=
  if Py.ltb q 0 || Py.ltb 100 q
  then inl (ValueError "Percentiles must be in the range [0, 100]")
  else match a with
       | [] => percentile_of_empty n
       | _ =>
           match finite_values a with
           | Some l => inr (Fin (percentile_linear l q))
           | None => inr NaN
           end
       end.

(** [np.random.seed] *)
Definition np_random_seed (n : numpy) (s : Z) : M unit :=
  fun w => (inr tt, {| db := db w; rng := seeded n s |}).

(** [np.random.normal(loc, scale, size)]: [loc + scale * z] for the next
    [size] deviates [z] of the process-wide generator. *)
Definition np_random_normal (loc : pyfloat) (scale : Q) (size : nat)
  : M ndarray :=
  fun w =>
    if Py.ltb scale 0 then (inl (ValueError "scale < 0"), w)
    else
      let g := rng w in
      (inr (map (fun i => fadd loc (Fin (scale * g i))) (seq 0 size)),
       {| db := db w; rng := fun i => g (size + i)%nat |}).

(** ** MonteCarloSimulator *)

Record fund_features := {
  historical_returns : list Q;
  ff_volatility : Q;
  ff_sharpe_ratio : Q;
  ff_max_drawdown : Q;
  correlation_sp500 : Q;
  asset_allocation : list (string * Q)
}.

(** [_extract_fund_features]: the placeholder ignores the fund. *)
Definition _extract_fund_features (fund : string) : fund_features := {|
  historical_returns := [0.08; 0.12; -0.03; 0.15; 0.09];
  ff_volatility := 0.18;
  ff_sharpe_ratio := 0.95;
  ff_max_drawdown := -0.12;
  correlation_sp500 := 0.65;
  asset_allocation := [("stocks", 0.60); ("bonds", 0.30); ("alternatives", 0.10)]
|}.

Record mc_results_t := {
  mc_returns : ndarray;
  mc_expected_return : pyfloat;
  mc_volatility : pyfloat;
  mc_max_drawdown : pyfloat;
  mc_prob_positive : pyfloat;
  mc_p5 : pyfloat;
  mc_p25 : pyfloat;
  mc_p50 : pyfloat;
  mc_p75 : pyfloat;
  mc_p95 : pyfloat
}.

Definition N_SAMPLES : nat := Z.to_nat 10000.

(** [simulated_returns > 0] followed by [np.mean]: booleans count as 0/1. *)
Definition positive_mask (a : ndarray) : ndarray :=
  map (fun r => if fltb (Fin 0) r then Fin 1 else Fin 0) a.

(** The dictionary [_run_monte_carlo_simulation] returns, as a function of
    the sample array; its entries are evaluated in source order. *)
Definition monte_carlo_summary (n : numpy) (simulated_returns : ndarray)
  : exn + mc_results_t :=
  match np_min simulated_returns with
  | inl e => inl e
  | inr lowest =>
  match np_percentile n simulated_returns 5 with
  | inl e => inl e
  | inr p5 =>
  match np_percentile n simulated_returns 25 with
  | inl e => inl e
  | inr p25 =>
  match np_percentile n simulated_returns 50 with
  | inl e => inl e
  | inr p50 =>
  match np_percentile n simulated_returns 75 with
  | inl e => inl e
  | inr p75 =>
  match np_percentile n simulated_returns 95 with
  | inl e => inl e
  | inr p95 =>
      inr {|
        mc_returns := simulated_returns;
        mc_expected_return := np_mean simulated_returns;
        mc_volatility := np_std n simulated_returns;
        mc_max_drawdown := lowest;
        mc_prob_positive := np_mean (positive_mask simulated_returns);
        mc_p5 := p5;
        mc_p25 := p25;
        mc_p50 := p50;
        mc_p75 := p75;
        mc_p95 := p95
      |}
  end end end end end end.

(** [_run_monte_carlo_simulation] *)
Definition _run_monte_carlo_simulation (env : environment)
    (features : fund_features) : M mc_results_t :=
  let mean_return := mean (historical_returns features) in
  let volatility := ff_volatility features in
  np_random_seed (np env) 42 ;;;
  simulated_returns <- np_random_normal mean_return volatility N_SAMPLES ;;
  lift (monte_carlo_summary (np env) simulated_returns).

(** ** RiskMetricsCalculator *)

(** [_calculate_var] *)
Definition _calculate_var (n : numpy) (returns : ndarray) (confidence : Q)
  : exn + pyfloat :=
  np_percentile n returns ((1 - confidence) * 100).

(** [returns[returns <= var]] *)
Definition tail_at_or_below (returns : ndarray) (var : pyfloat) : ndarray :=
  filter (fun r => fleb r var) returns.

(** [_calculate_cvar] *)
Definition _calculate_cvar (n : numpy) (returns : ndarray) (confidence : Q)
  : exn + pyfloat :=
  match _calculate_var n returns confidence with
  | inl e => inl e
  | inr var => inr (np_mean (tail_at_or_below returns var))
  end.

(** [_calculate_sharpe_ratio] *)
Definition _calculate_sharpe_ratio (mc_results : mc_results_t)
  : exn + pyfloat :=
  let risk_free_rate := Fin 0.02 in
  fdiv (fsub (mc_expected_return mc_results) risk_free_rate)
       (mc_volatility mc_results).

(** [_calculate_sortino_ratio] *)
Definition _calculate_sortino_ratio (n : numpy) (mc_results : mc_results_t)
  : exn + pyfloat :=
  let risk_free_rate := Fin 0.02 in
  let returns := mc_returns mc_results in
  let downside_returns := filter (fun r => fltb r risk_free_rate) returns in
  let downside_std :=
    match downside_returns with
    | [] => mc_volatility mc_results
    | _ => np_std n downside_returns
    end in
  fdiv (fsub (mc_expected_return mc_results) risk_free_rate) downside_std.

(** ** ScenarioAnalyzer *)

Record scenario_params_t := { sp_return : Q; sp_volatility : Q }.

(** The dictionary [scenario_params] of [_run_scenario_analysis], in
    insertion order. *)
Definition scenario_params : list (string * scenario_params_t) :=
  [ ("BULL", {| sp_return := 0.15; sp_volatility := 0.12 |});
    ("BASE", {| sp_return := 0.08; sp_volatility := 0.18 |});
    ("BEAR", {| sp_return := -0.15; sp_volatility := 0.25 |});
    ("TAIL_EVENT", {| sp_return := -0.30; sp_volatility := 0.40 |}) ].

(** [dict.get(key, default)] *)
Fixpoint dict_get {V} (d : list (string * V)) (key : string) (default : V) : V :=
  match d with
  | [] => default
  | (k, v) :: d' => if String.eqb k key then v else dict_get d' key default
  end.

Record scenario_result := {
  scenario : string;
  sr_expected_return : Q;
  sr_volatility : Q;
  sr_probability : Q
}.

(** [_run_scenario_analysis] *)
Definition _run_scenario_analysis (features : fund_features)
    (scenarios : list string) : list scenario_result :=
  let base := {| sp_return := 0.08; sp_volatility := 0.18 |} in
  map (fun s =>
         let params := dict_get scenario_params s (dict_get scenario_params "BASE" base) in
         {| scenario := s;
            sr_expected_return := sp_return params;
            sr_volatility := sp_volatility params;
            sr_probability := if String.eqb s "BASE" then 0.25 else 0.10 |})
      scenarios.

Record stress_test_result := {
  test : string;
  st_expected_return : Q;
  st_probability : Q
}.

(** [_run_stress_tests] *)
Definition _run_stress_tests (features : fund_features)
  : list stress_test_result :=
  [ {| test := "2008_FINANCIAL_CRISIS"; st_expected_return := -0.35;
       st_probability := 0.02 |};
    {| test := "INTEREST_RATE_SHOCK"; st_expected_return := -0.12;
       st_probability := 0.15 |};
    {| test := "LIQUIDITY_CRISIS"; st_expected_return := -0.18;
       st_probability := 0.08 |} ].

(** ** [assess_fund_performance_risk] *)

Record risk_metrics_t := {
  rm_expected_return_1y : pyfloat;
  rm_volatility : pyfloat;
  rm_var_95 : pyfloat;
  rm_var_99 : pyfloat;
  rm_cvar_95 : pyfloat;
  rm_sharpe_ratio : pyfloat;
  rm_sortino_ratio : pyfloat;
  rm_max_drawdown : pyfloat;
  rm_probability_positive_return : pyfloat
}.

(** [_generate_fund_risk_recommendations] *)
Definition _generate_fund_risk_recommendations (risk_metrics : risk_metrics_t)
  : list string :=
  let recommendations :=
    (if fltb (rm_sharpe_ratio risk_metrics) (Fin 0.5)
     then [ "Consider portfolio rebalancing for better risk-adjusted returns" ]
     else [])
    ++ (if fltb (rm_max_drawdown risk_metrics) (Fin (-0.20))
        then [ "Review downside protection strategies" ] else [])
    ++ (if fltb (rm_probability_positive_return risk_metrics) (Fin 0.75)
        then [ "Evaluate defensive positioning" ] else []) in
  match recommendations with
  | [] => [ "Maintain current risk management approach" ]
  | _ => recommendations
  end.

Record return_distribution_t := {
  rd_expected_return : pyfloat;
  percentile_5 : pyfloat;
  percentile_25 : pyfloat;
  percentile_50 : pyfloat;
  percentile_75 : pyfloat;
  percentile_95 : pyfloat
}.

Record fund_risk_response := {
  fr_prediction_id : string;
  fr_fund_id : string;
  fr_risk_metrics : risk_metrics_t;
  fr_return_distribution : return_distribution_t;
  fr_scenario_analysis : list scenario_result;
  fr_stress_tests : list stress_test_result;
  fr_model_version : string;
  fr_prediction_timestamp : Z
}.

(** [if not scenarios: scenarios = [...]]: [None] and the empty list are
    both replaced by the four standard names. *)
Definition scenarios_or_default (scenarios : option (list string))
  : list string :=
  match scenarios with
  | None | Some [] => [ "BULL"; "BASE"; "BEAR"; "TAIL_EVENT" ]
  | Some l => l
  end.

Definition assess_fund_performance_risk (env : environment)
    (fund : string) (scenarios : option (list string))
  : M fund_risk_response :=
  model <- query (fun d => find_production_model d fund_risk_model_id) ;;
  match model with
  | None =>
      raise (ValueError
               (String.append "Fund risk model "
                  (String.append fund_risk_model_id " not found")))
  | Some model =>
      let features := _extract_fund_features fund in
      mc_results <- _run_monte_carlo_simulation env features ;;
      var_95 <- lift (_calculate_var (np env) (mc_returns mc_results) 0.95) ;;
      var_99 <- lift (_calculate_var (np env) (mc_returns mc_results) 0.99) ;;
      cvar_95 <- lift (_calculate_cvar (np env) (mc_returns mc_results) 0.95) ;;
      let scenarios := scenarios_or_default scenarios in
      let scenario_results := _run_scenario_analysis features scenarios in
      sharpe <- lift (_calculate_sharpe_ratio mc_results) ;;
      sortino <- lift (_calculate_sortino_ratio (np env) mc_results) ;;
      let risk_metrics := {|
        rm_expected_return_1y := mc_expected_return mc_results;
        rm_volatility := mc_volatility mc_results;
        rm_var_95 := var_95;
        rm_var_99 := var_99;
        rm_cvar_95 := cvar_95;
        rm_sharpe_ratio := sharpe;
        rm_sortino_ratio := sortino;
        rm_max_drawdown := mc_max_drawdown mc_results;
        rm_probability_positive_return := mc_prob_positive mc_results
      |} in
      let probability := fsub (Fin 1) (mc_prob_positive mc_results) in
      score <- lift (fint (fmul probability (Fin 100))) ;;
      let prediction := {|
        prediction_id :=
          String.append "PRED_FUND_RISK_"
            (String.substring 0 12 (uuid4_hex env));
        rp_model_id := model_id model;
        rp_risk_type := FUND_PERFORMANCE_RISK;
        risk_horizon := "12M";
        investor_id := None;
        fund_id := Some fund;
        risk_probability := probability;
        rp_risk_tier := None;
        risk_score := score;
        previous_risk_score := None;
        rp_risk_trend := None;
        trend_magnitude := None;
        top_risk_factors := [];
        contributing_metrics := Some {|
          cm_var_95 := var_95;
          cm_cvar_95 := cvar_95;
          cm_volatility := mc_volatility mc_results;
          cm_max_drawdown := mc_max_drawdown mc_results
        |};
        estimated_loss_exposure := None;
        exposure_percentage := None;
        recommended_actions := _generate_fund_risk_recommendations risk_metrics;
        prediction_timestamp := utcnow env
      |} in
      db_add_commit prediction ;;;
      ret {|
        fr_prediction_id := prediction_id prediction;
        fr_fund_id := fund;
        fr_risk_metrics := risk_metrics;
        fr_return_distribution := {|
          rd_expected_return := mc_expected_return mc_results;
          percentile_5 := mc_p5 mc_results;
          percentile_25 := mc_p25 mc_results;
          percentile_50 := mc_p50 mc_results;
          percentile_75 := mc_p75 mc_results;
          percentile_95 := mc_p95 mc_results
        |};
        fr_scenario_analysis := scenario_results;
        fr_stress_tests := _run_stress_tests features;
        fr_model_version := version model;
        fr_prediction_timestamp := prediction_timestamp prediction
      |}
  end.

(** ** Concrete inputs *)

(** The feature vector of the worked scoring scenario; the fields the
    scorer does not read carry the values of the default table. *)
Definition scenario_features : risk_features := {|
  late_payment_count := 3;
  missed_payment_count := 0;
  on_time_payment_rate := 0.85;
  avg_payment_delay_days := 1.5;
  current_balance := 1000000;
  account_growth_rate := 0.08;
  leverage_ratio := 0.3;
  liquidity_risk := 0.15;
  recent_sentiment_score := 0.6;
  sentiment_trend := 0;
  communication_frequency := 5;
  portfolio_concentration := 0.4;
  portfolio_volatility := 0.18;
  diversification_score := 0.7
|}.

(** A stand-in for the NumPy module in closed examples.  After
    [np.random.seed(s)] the deviates are [s], [s + 1], [s + 2], ...; any
    generator whose streams differ between two seeds would serve. *)
Definition toy_numpy : numpy := {|
  seeded := fun s i => inject_Z (s + Z.of_nat i);
  std := fun _ => 1;
  percentile_of_empty := inr NaN
|}.

Definition toy_env : environment := {|
  np := toy_numpy;
  uuid4_hex := "0123456789abcdef0123456789abcdef";
  utcnow := 1700000000
|}.

Definition production_default_model : AIModel := {|
  model_id := "DEFAULT_RISK_NN_V2.3";
  status := "PRODUCTION";
  version := "2.3"
|}.

(** A feature row whose scorer inputs are those of the worked scenario. *)
Definition scenario_row : FeatureStore := {|
  feature_timestamp := 1699990000;
  entity_type := "INVESTOR";
  entity_id := "INV-1";
  fs_late_payment_count := Some 3;
  fs_missed_payment_count := Some 0;
  fs_on_time_payment_rate := Some 0.85;
  fs_avg_payment_delay_days := Some 1.5;
  fs_current_balance := Some 1000000;
  fs_account_growth_rate := Some 0.08;
  fs_leverage_ratio := Some 0.3;
  fs_liquidity_risk := Some 0.15;
  fs_recent_sentiment_score := Some 0.6;
  fs_sentiment_trend := Some 0;
  fs_communication_frequency := Some 5;
  fs_portfolio_concentration := Some 0.4;
  fs_portfolio_volatility := Some 0.18;
  fs_diversification_score := Some 0.7
|}.

Definition scenario_world : world := {|
  db := {| ai_models := [production_default_model];
           feature_store := [scenario_row];
           ai_predictions_risk := [] |};
  rng := seeded toy_numpy 7
|}.

(** A session in which no model at all is registered. *)
Definition unregistered_world : world := {|
  db := {| ai_models := [];
           feature_store := [scenario_row];
           ai_predictions_risk := [] |};
  rng := seeded toy_numpy 7
|}.

(** Another session, whose process-wide generator was seeded differently. *)
Definition reseeded_world : world := {|
  db := {| ai_models := [production_default_model];
           feature_store := [];
           ai_predictions_risk := [] |};
  rng := seeded toy_numpy 20240101
|}.

(** The rows a call left in [ai_predictions_risk]. *)
Definition recorded {A} (r : (exn + A) * world) : list RiskPrediction :=
  ai_predictions_risk (db (snd r)).


(** The array [np.random.normal(mean_return, volatility, 10000)] yields
    right after [np.random.seed(s)]: [loc + scale * z] over the first
    [N_SAMPLES] deviates of seed [s]. *)
Definition samples_for_seed (n : numpy) (s : Z) (features : fund_features)
  : ndarray :=
  map (fun i => fadd (mean (historical_returns features))
                     (Fin (ff_volatility features * seeded n s i)))
      (seq 0 N_SAMPLES).

Definition seed_42_samples (n : numpy) (features : fund_features) : ndarray :=
  samples_for_seed n 42 features.

(** The same, as rationals, when the historical mean is [m]. *)
Definition finite_samples (n : numpy) (m : Q) (features : fund_features)
  : list Q :=
  map (fun i => m + ff_volatility features * seeded n 42 i) (seq 0 N_SAMPLES).

(** A fund whose historical return series is empty. *)
Definition empty_history_features : fund_features := {|
  historical_returns := [];
  ff_volatility := 0.18;
  ff_sharpe_ratio := 0.95;
  ff_max_drawdown := -0.12;
  correlation_sp500 := 0.65;
  asset_allocation := []
|}.

(** An earlier default-risk assessment of investor "INV-1", recorded at
    time [t] with score [score]. *)
Definition prior_assessment (t score : Z) : RiskPrediction := {|
  prediction_id := "PRED_RISK_000000000000";
  rp_model_id := "DEFAULT_RISK_NN_V2.3";
  rp_risk_type := DEFAULT_RISK;
  risk_horizon := "12M";
  investor_id := Some "INV-1";
  fund_id := None;
  risk_probability := Fin (inject_Z score / 100 * 0.25);
  rp_risk_tier := Some (_calculate_risk_tier (inject_Z score / 100 * 0.25));
  risk_score := score;
  previous_risk_score := Some score;
  rp_risk_trend := Some STABLE;
  trend_magnitude := Some 0%Z;
  top_risk_factors := [];
  contributing_metrics := None;
  estimated_loss_exposure := None;
  exposure_percentage := None;
  recommended_actions := [];
  prediction_timestamp := t
|}.

Definition with_predictions (rows : list RiskPrediction) : world := {|
  db := {| ai_models := [production_default_model];
           feature_store := [scenario_row];
           ai_predictions_risk := rows |};
  rng := seeded toy_numpy 7
|}.

(** What the trend computation is specified to return: compare against
    the most recently recorded prior assessment, if there is one. *)
Definition trend_against_most_recent (d : database) (investor : string)
    (current_score : Z) : Z * risk_trend :=
  match first (order_by_desc prediction_timestamp
                 (filter (fun p => opt_string_eqb (investor_id p) investor
                                   && risk_type_eqb (rp_risk_type p) DEFAULT_RISK)
                         (ai_predictions_risk d))) with
  | None => (current_score, STABLE)
  | Some previous_prediction =>
      let previous_score := risk_score previous_prediction in
      let diff := (current_score - previous_score)%Z in
      (previous_score,
       if (5 <? diff)%Z then DETERIORATING
       else if (diff <? -5)%Z then IMPROVING
       else STABLE)
  end.

(** The columns [_extract_risk_features] reads, each with the feature it
    fills and the literal to the right of its [or]. *)
Definition feature_columns
  : list ((FeatureStore -> option Q) * (risk_features -> Q) * Q) :=
  [ (fs_late_payment_count, late_payment_count, 0);
    (fs_missed_payment_count, missed_payment_count, 0);
    (fs_on_time_payment_rate, on_time_payment_rate, 0.9);
    (fs_avg_payment_delay_days, avg_payment_delay_days, 1.5);
    (fs_current_balance, current_balance, 1000000);
    (fs_account_growth_rate, account_growth_rate, 0.08);
    (fs_leverage_ratio, leverage_ratio, 0.3);
    (fs_liquidity_risk, liquidity_risk, 0.15);
    (fs_recent_sentiment_score, recent_sentiment_score, 0.6);
    (fs_sentiment_trend, sentiment_trend, 0);
    (fs_communication_frequency, communication_frequency, 5);
    (fs_portfolio_concentration, portfolio_concentration, 0.4);
    (fs_portfolio_volatility, portfolio_volatility, 0.18);
    (fs_diversification_score, diversification_score, 0.7) ].

(** A stored row with genuine zeros: never on time, empty account, no
    leverage, sentiment 0.0; the remaining feature columns are NULL. *)
Definition zero_row : FeatureStore := {|
  feature_timestamp := 1699990000;
  entity_type := "INVESTOR";
  entity_id := "INV-0";
  fs_late_payment_count := Some 0;
  fs_missed_payment_count := Some 0;
  fs_on_time_payment_rate := Some 0.0;
  fs_avg_payment_delay_days := None;
  fs_current_balance := Some 0;
  fs_account_growth_rate := None;
  fs_leverage_ratio := Some 0;
  fs_liquidity_risk := None;
  fs_recent_sentiment_score := Some 0.0;
  fs_sentiment_trend := None;
  fs_communication_frequency := None;
  fs_portfolio_concentration := None;
  fs_portfolio_volatility := None;
  fs_diversification_score := None
|}.

Definition zero_row_db : database := {|
  ai_models := [production_default_model];
  feature_store := [zero_row];
  ai_predictions_risk := []
|}.

Definition standard_scenarios : list string :=
  [ "BULL"; "BASE"; "BEAR"; "TAIL_EVENT" ].

(** A small array of returns for closed examples. *)
Definition five_returns : ndarray :=
  [ Fin 0.08; Fin 0.12; Fin (-0.03); Fin 0.15; Fin 0.09 ].

(** ** The API route over the service *)

(** [RiskAssessmentRequest] of [backend/app/api/v1/ai_predictions.py]. *)
Record RiskAssessmentRequest := {
  req_investor_id : option string;
  req_fund_id : option string;
  req_risk_type : string;
  req_risk_horizon : string;
  req_include_trend : bool
}.

Record HTTPException := { status_code : Z; detail : string }.

Inductive risk_assessment_result :=
| DefaultRiskResult (r : default_risk_response)
| FundRiskResult (r : fund_risk_response).

(** [str(e)] *)
Definition str (e : exn) : string :=
  match e with
  | ValueError msg | TypeError msg | ZeroDivisionError msg => msg
  end.

(** Truth value of an optional string: [None] and [""] are falsy. *)
Definition nonempty_id (x : option string) : option string :=
  match x with
  | Some "" => None
  | other => other
  end.

(** What the route does with the outcome of a service call: a service
    exception becomes a 500 whose detail is the exception's text. *)
Definition as_http {A} (wrap : A -> risk_assessment_result)
    (r : (exn + A) * world)
  : (HTTPException + risk_assessment_result) * world :=
  match r with
  | (inl e, w') => (inl {| status_code := 500; detail := str e |}, w')
  | (inr a, w') => (inr (wrap a), w')
  end.

(** [assess_risk] (POST /risk-assessment) *)
Definition assess_risk (env : environment) (request : RiskAssessmentRequest)
  : world -> (HTTPException + risk_assessment_result) * world :=
  fun w =>
    if String.eqb (req_risk_type request) "DEFAULT_RISK" then
      match nonempty_id (req_investor_id request) with
      | None =>
          (inl {| status_code := 400;
                  detail := "investor_id required for DEFAULT_RISK" |}, w)
      | Some investor =>
          as_http DefaultRiskResult
            (assess_investor_default_risk env investor
               (req_risk_horizon request) (req_include_trend request) w)
      end
    else if String.eqb (req_risk_type request) "FUND_PERFORMANCE_RISK" then
      match nonempty_id (req_fund_id request) with
      | None =>
          (inl {| status_code := 400;
                  detail := "fund_id required for FUND_PERFORMANCE_RISK" |}, w)
      | Some fund =>
          as_http FundRiskResult
            (assess_fund_performance_risk env fund None w)
      end
    else
      (inl {| status_code := 400; detail := "Invalid risk_type" |}, w).

(** ** Orderings used in the statements *)

Definition tier_rank (t : risk_tier) : nat :=
  match t with
  | TIER_1 => 1 | TIER_2 => 2 | TIER_3 => 3 | TIER_4 => 4 | TIER_5 => 5
  end.

(** [g] is at least as bad as [f] on every input the scorer reads. *)
Definition no_better (f g : risk_features) : Prop :=
  late_payment_count f <= late_payment_count g
  /\ missed_payment_count f <= missed_payment_count g
  /\ on_time_payment_rate g <= on_time_payment_rate f
  /\ leverage_ratio f <= leverage_ratio g
  /\ recent_sentiment_score g <= recent_sentiment_score f.

(** ** Further concrete inputs *)

(** The worked scenario with two more late payments. *)
Definition worse_features : risk_features := {|
  late_payment_count := 5;
  missed_payment_count := 0;
  on_time_payment_rate := 0.85;
  avg_payment_delay_days := 1.5;
  current_balance := 1000000;
  account_growth_rate := 0.08;
  leverage_ratio := 0.3;
  liquidity_risk := 0.15;
  recent_sentiment_score := 0.6;
  sentiment_trend := 0;
  communication_frequency := 5;
  portfolio_concentration := 0.4;
  portfolio_volatility := 0.18;
  diversification_score := 0.7
|}.

(** A stored row whose balance column is NULL. *)
Definition null_balance_row : FeatureStore := {|
  feature_timestamp := 1699990000;
  entity_type := "INVESTOR";
  entity_id := "INV-2";
  fs_late_payment_count := Some 1;
  fs_missed_payment_count := Some 0;
  fs_on_time_payment_rate := Some 0.9;
  fs_avg_payment_delay_days := None;
  fs_current_balance := None;
  fs_account_growth_rate := None;
  fs_leverage_ratio := Some 0.3;
  fs_liquidity_risk := None;
  fs_recent_sentiment_score := Some 0.6;
  fs_sentiment_trend := None;
  fs_communication_frequency := None;
  fs_portfolio_concentration := None;
  fs_portfolio_volatility := None;
  fs_diversification_score := None
|}.

Definition null_balance_world : world := {|
  db := {| ai_models := [production_default_model];
           feature_store := [null_balance_row];
           ai_predictions_risk := [] |};
  rng := seeded toy_numpy 7
|}.

Definition zero_row_world : world := {|
  db := zero_row_db;
  rng := seeded toy_numpy 7
|}.

(** Metrics that are all NaN. *)
Definition nan_metrics : risk_metrics_t := {|
  rm_expected_return_1y := NaN;
  rm_volatility := NaN;
  rm_var_95 := NaN;
  rm_var_99 := NaN;
  rm_cvar_95 := NaN;
  rm_sharpe_ratio := NaN;
  rm_sortino_ratio := NaN;
  rm_max_drawdown := NaN;
  rm_probability_positive_return := NaN
|}.

(** A highly leveraged investor with a shrinking account and nothing else
    against them. *)
Definition leveraged_features : risk_features := {|
  late_payment_count := 0;
  missed_payment_count := 0;
  on_time_payment_rate := 1;
  avg_payment_delay_days := 0;
  current_balance := 1000000;
  account_growth_rate := -0.5;
  leverage_ratio := 0.9;
  liquidity_risk := 0.15;
  recent_sentiment_score := 0.6;
  sentiment_trend := 0;
  communication_frequency := 5;
  portfolio_concentration := 0.4;
  portfolio_volatility := 0.18;
  diversification_score := 0.7
|}.

(** Simulation results in which every return is at least the risk-free
    rate. *)
Definition gains_only : mc_results_t := {|
  mc_returns := [Fin 0.02; Fin 0.05; Fin 0.11];
  mc_expected_return := Fin 0.06;
  mc_volatility := Fin 0.04;
  mc_max_drawdown := Fin 0.02;
  mc_prob_positive := Fin 1;
  mc_p5 := Fin 0.023;
  mc_p25 := Fin 0.035;
  mc_p50 := Fin 0.05;
  mc_p75 := Fin 0.08;
  mc_p95 := Fin 0.104
|}.

(** A request is malformed when its risk type is neither of the two
    supported ones or the id its risk type needs is missing or empty. *)
Definition malformed (request : RiskAssessmentRequest) : Prop :=
  (req_risk_type request <> "DEFAULT_RISK"
   /\ req_risk_type request <> "FUND_PERFORMANCE_RISK")
  \/ (req_risk_type request = "DEFAULT_RISK"
      /\ nonempty_id (req_investor_id request) = None)
  \/ (req_risk_type request = "FUND_PERFORMANCE_RISK"
      /\ nonempty_id (req_fund_id request) = None).

Definition default_risk_request (investor : option string)
  : RiskAssessmentRequest := {|
  req_investor_id := investor;
  req_fund_id := None;
  req_risk_type := "DEFAULT_RISK";
  req_risk_horizon := "12M";
  req_include_trend := true
|}.

(** Two earlier assessments of "INV-1"; the older one scored 0. *)
Definition zero_then_ten : world :=
  with_predictions [prior_assessment 1690000000 0;
                    prior_assessment 1695000000 10].

(** ** Binary64 evaluation

    The definitions above compute with exact rationals.  Where the rounding
    of IEEE 754 binary64 decides what the code returns, the functions
    concerned are evaluated again here with every arithmetic operation
    rounded to the nearest double, ties to even.  Overflow to infinity is
    not modelled; the values in play are far from it. *)

Module B64.

(** [floor(log2 x)] for a positive rational. *)
Definition ilog2 (x : Q) : Z :=
  let e := (Z.log2 (Qnum x) - Z.log2 (Zpos (Qden x)))%Z in
  if Qle_bool (2 ^ e) x then e else (e - 1)%Z.

(** Round to the nearest double, ties to even: 53 significant bits,
    subnormals below [2 ^ -1022]. *)
Definition rnd (x : Q) : Q :=
  if Qeq_bool x 0 then 0
  else
    let magnitude := Qabs x in
    let e := Z.max (ilog2 magnitude) (-1022) in
    let ulp := 2 ^ (e - 52) in
    let r := inject_Z (Py.round (magnitude / ulp)) * ulp in
    Qred (if Qle_bool 0 x then r else - r).

(** A decimal literal of the source, as the double Python reads it as. *)
Definition lit (x : Q) : Q := rnd x.

Definition add (x y : Q) : Q := rnd (x + y).
Definition sub (x y : Q) : Q := rnd (x - y).
Definition mul (x y : Q) : Q := rnd (x * y).
Definition div (x y : Q) : Q := rnd (x / y).

End B64.

(** [_predict_default_risk] in binary64, for features that are doubles. *)
Definition _predict_default_risk_b64 (features : risk_features) : Q * Z :=
  let late_payment_score := B64.mul (late_payment_count features) 5 in
  let missed_payment_score := B64.mul (missed_payment_count features) 15 in
  let on_time_bonus :=
    B64.mul (B64.sub 1 (on_time_payment_rate features)) 30 in
  let leverage_score := B64.mul (leverage_ratio features) 20 in
  let sentiment_score :=
    B64.mul (Py.max 0 (B64.sub (B64.lit 0.5) (recent_sentiment_score features)))
            25 in
  let risk_score :=
    Py.min 100
      (B64.add (B64.add (B64.add (B64.add late_payment_score
                                          missed_payment_score)
                                 on_time_bonus)
                        leverage_score)
               sentiment_score) in
  let risk_probability := B64.mul (B64.div risk_score 100) (B64.lit 0.25) in
  (risk_probability, Py.int risk_score).

(** NumPy's pairwise summation of doubles: fewer than 8 elements are added
    in order; up to 128 are added in eight lanes that are then combined;
    longer arrays are split in two. *)
Fixpoint add_lanes (blocks : nat) (lanes rest : list Q) : list Q * list Q :=
  match blocks with
  | O => (lanes, rest)
  | S blocks' =>
      add_lanes blocks'
        (map (fun p => B64.add (fst p) (snd p)) (combine lanes (firstn 8 rest)))
        (skipn 8 rest)
  end.

Definition block_sum (a : list Q) : Q :=
  let n := List.length a in
  let '(lanes, rest) := add_lanes (n / 8 - 1) (firstn 8 a) (skipn 8 a) in
  let r := fun j => nth j lanes 0 in
  let res :=
    B64.add (B64.add (B64.add (r 0%nat) (r 1%nat)) (B64.add (r 2%nat) (r 3%nat)))
            (B64.add (B64.add (r 4%nat) (r 5%nat)) (B64.add (r 6%nat) (r 7%nat))) in
  fold_left B64.add rest res.

Fixpoint pairwise_sum (fuel : nat) (a : list Q) : Q :=
  let n := List.length a in
  if (n <? 8)%nat then fold_left B64.add a 0
  else if (n <=? 128)%nat then block_sum a
  else
    match fuel with
    | O => 0
    | S fuel' =>
        let half := (n / 2)%nat in
        let n2 := (half - half mod 8)%nat in
        B64.add (pairwise_sum fuel' (firstn n2 a))
                (pairwise_sum fuel' (skipn n2 a))
    end.

(** [np.mean] of doubles: the sum (the identity 0.0 plus the pairwise sum)
    divided by the count. *)
Definition mean_b64 (l : list Q) : pyfloat :=
  match l with
  | [] => NaN
  | _ => Fin (B64.div (B64.add 0 (pairwise_sum (List.length l) l)) (Qlen l))
  end.

(** [np.percentile] with the default method on doubles: the percentage is
    divided by 100 and checked against [0, 1]; the virtual index is
    [(n - 1) * quantile]; the interpolation is NumPy's [_lerp]. *)
Definition np_percentile_b64 (n : numpy) (l : list Q) (q : Q)
  : exn + pyfloat :=
  let quantile := B64.div q 100 in
  if Py.ltb quantile 0 || Py.ltb 1 quantile
  then inl (ValueError "Percentiles must be in the range [0, 100]")
  else match l with
       | [] => percentile_of_empty n
       | _ =>
           let sorted := sort_asc l in
           let virtual_index :=
             B64.mul (inject_Z (Z.of_nat (List.length l - 1))) quantile in
           let previous := Z.to_nat (Qfloor virtual_index) in
           let next := Nat.min (previous + 1) (List.length l - 1) in
           let gamma := B64.sub virtual_index (inject_Z (Qfloor virtual_index)) in
           let a := nth previous sorted 0 in
           let b := nth next sorted 0 in
           let diff_b_a := B64.sub b a in
           inr (Fin (if Py.leb 0.5 gamma
                     then B64.sub b (B64.mul diff_b_a (B64.sub 1 gamma))
                     else B64.add a (B64.mul diff_b_a gamma)))
       end.

(** [_calculate_var] in binary64 *)
Definition _calculate_var_b64 (n : numpy) (returns : list Q) (confidence : Q)
  : exn + pyfloat :=
  np_percentile_b64 n returns (B64.mul (B64.sub 1 confidence) 100).

(** [_calculate_cvar] in binary64 *)
Definition _calculate_cvar_b64 (n : numpy) (returns : list Q) (confidence : Q)
  : exn + pyfloat :=
  match _calculate_var_b64 n returns confidence with
  | inl e => inl e
  | inr (Fin var) =>
      inr (mean_b64 (filter (fun r => Py.leb r var) returns))
  | inr NaN => inr NaN
  end.

(** ** Inputs of the binary64 evaluations *)

(** One late payment, on-time rate 0.8, leverage 0.2, sentiment 0.6. *)
Definition near_fifteen_features : risk_features := {|
  late_payment_count := 1;
  missed_payment_count := 0;
  on_time_payment_rate := B64.lit 0.8;
  avg_payment_delay_days := B64.lit 1.5;
  current_balance := 1000000;
  account_growth_rate := B64.lit 0.08;
  leverage_ratio := B64.lit 0.2;
  liquidity_risk := B64.lit 0.15;
  recent_sentiment_score := B64.lit 0.6;
  sentiment_trend := 0;
  communication_frequency := 5;
  portfolio_concentration := B64.lit 0.4;
  portfolio_volatility := B64.lit 0.18;
  diversification_score := B64.lit 0.7
|}.

(** Three simulated returns, each the double 0.1. *)
Definition constant_returns : list Q :=
  [ B64.lit 0.1; B64.lit 0.1; B64.lit 0.1 ].

(** * Properties *)

(** ** Python built-ins *)

Lemma ltb_lt (x y : Q) : Py.ltb x y = true <-> x < y.
Proof.
  unfold Py.ltb. rewrite negb_true_iff.
  split; intro H.
  - apply Qnot_le_lt. intro L. apply Qle_bool_iff in L. congruence.
  - destruct (Qle_bool y x) eqn:E; [|reflexivity].
    apply Qle_bool_iff in E. exfalso. apply (Qlt_not_le _ _ H E).
Qed.

Lemma ltb_ge (x y : Q) : Py.ltb x y = false <-> y <= x.
Proof.
  unfold Py.ltb. rewrite negb_false_iff. apply Qle_bool_iff.
Qed.

Lemma leb_le (x y : Q) : Py.leb x y = true <-> x <= y.
Proof. apply Qle_bool_iff. Qed.

Lemma int_comp (x y : Q) : x == y -> Py.int x = Py.int y.
Proof.
  intro E. unfold Py.int.
  rewrite (Qfloor_comp _ _ E), (Qceiling_comp _ _ E), (Qleb_comp 0 0 (Qeq_refl 0) _ _ E).
  reflexivity.
Qed.

(** ** The worked scoring scenario *)

(** C4, counterexample: at the scenario input the scorer does not return
    the score 26 and the probability 0.065 that the scenario announces. *)
Lemma C4_scenario_not_as_stated :
  ~ (fold_left Qplus (contributions scenario_features) 0 == 25.5
     /\ snd (_predict_default_risk scenario_features) = 26%Z
     /\ fst (_predict_default_risk scenario_features) == 0.065
     /\ _calculate_risk_tier (fst (_predict_default_risk scenario_features))
        = TIER_3).
Proof.
  intros (_ & H & _). vm_compute in H. discriminate H.
Qed.

(** C4, amended: for lateCount=3, missedCount=0, onTimeRate=0.85,
    leverageRatio=0.3, sentimentScore=0.6 the contributions are
    15 + 0 + 4.5 + 6 + 0 = 25.5, the returned integer score is 25 ([int]
    truncates), the returned probability is 0.06375 (computed from the
    untruncated 25.5) and the tier is TIER_3. *)
Theorem C4_scenario :
  Forall2 Qeq (contributions scenario_features) [15; 0; 4.5; 6; 0]
  /\ fold_left Qplus (contributions scenario_features) 0 == 25.5
  /\ snd (_predict_default_risk scenario_features) = 25%Z
  /\ fst (_predict_default_risk scenario_features) == 0.06375
  /\ _calculate_risk_tier (fst (_predict_default_risk scenario_features))
     = TIER_3.
Proof.
  split; [|split; [|split; [|split]]].
  - repeat constructor; vm_compute; reflexivity.
  - vm_compute. reflexivity.
  - vm_compute. reflexivity.
  - vm_compute. reflexivity.
  - vm_compute. reflexivity.
Qed.

(** ** The service monad *)

Lemma bind_inv {A B} (m : M A) (k : A -> M B) w r w' :
  bind m k w = (r, w') ->
  (exists e, m w = (inl e, w') /\ r = inl e)
  \/ (exists a w1, m w = (inr a, w1) /\ k a w1 = (r, w')).
Proof.
  unfold bind. destruct (m w) as [[e|a] w1]; intro H.
  - left. exists e. inversion H; subst. auto.
  - right. exists a, w1. auto.
Qed.

Lemma query_inv {A} (f : database -> A) w r w' :
  query f w = (r, w') -> r = inr (f (db w)) /\ w' = w.
Proof. unfold query. intro H. inversion H. auto. Qed.

Lemma lift_inv {A} (x : exn + A) w r w' :
  lift x w = (r, w') -> r = x /\ w' = w.
Proof. unfold lift. intro H. inversion H. auto. Qed.

(** ** Model registry *)

Lemma find_production_model_none d mid :
  (forall m, In m (ai_models d) -> model_id m = mid -> status m <> "PRODUCTION") ->
  find_production_model d mid = None.
Proof.
  unfold find_production_model, first. intro H.
  induction (ai_models d) as [|m l IH]; [reflexivity|].
  simpl. destruct (String.eqb (model_id m) mid) eqn:E1; simpl.
  - destruct (String.eqb (status m) "PRODUCTION") eqn:E2.
    + exfalso. apply String.eqb_eq in E1, E2.
      apply (H m (or_introl eq_refl) E1 E2).
    + apply IH. intros m' Hin. apply H. right. exact Hin.
  - apply IH. intros m' Hin. apply H. right. exact Hin.
Qed.

(** C8: when no row of the model registry carries the default-risk model
    id with status PRODUCTION, [assess_investor_default_risk] raises (a
    [ValueError] naming the missing model) and hands the session back
    exactly as it received it: nothing is added, nothing is committed. *)
Theorem C8_no_model_no_write env investor horizon include_trend w :
  (forall m, In m (ai_models (db w)) ->
             model_id m = default_risk_model_id -> status m <> "PRODUCTION") ->
  assess_investor_default_risk env investor horizon include_trend w
  = (inl (ValueError "Default risk model DEFAULT_RISK_NN_V2.3 not found"), w).
Proof.
  intro H. apply find_production_model_none in H.
  unfold assess_investor_default_risk, bind, query.
  rewrite H. reflexivity.
Qed.

Lemma C8_no_model_no_write_witness :
  assess_investor_default_risk toy_env "INV-1" "12M" true unregistered_world
  = (inl (ValueError "Default risk model DEFAULT_RISK_NN_V2.3 not found"),
     unregistered_world).
Proof.
  apply (C8_no_model_no_write toy_env "INV-1" "12M" true unregistered_world).
  simpl. intros m F. destruct F.
Defined.

(** ** The stored score *)

Lemma predict_default_risk_eq features :
  _predict_default_risk features
  = (raw_score features / 100 * 0.25, Py.int (raw_score features)).
Proof. reflexivity. Qed.

Lemma default_path_score env investor horizon include_trend w :
  match assess_investor_default_risk env investor horizon include_trend w with
  | (inr _, w') =>
      exists p raw,
        ai_predictions_risk (db w') = ai_predictions_risk (db w) ++ [p]
        /\ raw = raw_score (_extract_risk_features (db w) investor)
        /\ risk_probability p = Fin (raw / 100 * 0.25)
        /\ risk_score p = Py.int raw
  | (inl _, w') => db w' = db w
  end.
Proof.
  unfold assess_investor_default_risk, bind, query.
  destruct (find_production_model (db w) default_risk_model_id) as [model|];
    [|reflexivity].
  rewrite predict_default_risk_eq.
  set (features := _extract_risk_features (db w) investor).
  set (raw := raw_score features).
  destruct include_trend; unfold ret, lift, raise; simpl.
  1: destruct (_calculate_risk_trend (db w) investor (Py.int raw)) as [pv tr].
  all: destruct (_calculate_loss_exposure (db w) investor (raw / 100 * 0.25)).
  all: simpl; try reflexivity.
  all: eexists; exists raw; repeat split.
Qed.

(** ** The simulator, step by step *)

Lemma simulator_spec env features w :
  _run_monte_carlo_simulation env features w
  = if Py.ltb (ff_volatility features) 0
    then (inl (ValueError "scale < 0"),
          {| db := db w; rng := seeded (np env) 42 |})
    else (monte_carlo_summary (np env) (seed_42_samples (np env) features),
          {| db := db w;
             rng := fun i => seeded (np env) 42 (N_SAMPLES + i)%nat |}).
Proof.
  unfold _run_monte_carlo_simulation, bind, np_random_seed, np_random_normal,
    lift, seed_42_samples, samples_for_seed.
  cbn [db rng]. destruct (Py.ltb (ff_volatility features) 0); reflexivity.
Qed.

Lemma fund_path_score env fund scenarios w :
  match assess_fund_performance_risk env fund scenarios w with
  | (inr _, w') =>
      exists p q,
        ai_predictions_risk (db w') = ai_predictions_risk (db w) ++ [p]
        /\ risk_probability p = Fin q
        /\ risk_score p = Py.int (q * 100)
  | (inl _, w') => db w' = db w
  end.
Proof.
  unfold assess_fund_performance_risk, bind, query.
  destruct (find_production_model (db w) fund_risk_model_id) as [model|];
    [|reflexivity].
  rewrite simulator_spec.
  change (Py.ltb (ff_volatility (_extract_fund_features fund)) 0) with false.
  cbv iota.
  destruct (monte_carlo_summary _ _) as [e|mc]; [reflexivity|].
  unfold lift.
  destruct (_calculate_var (np env) (mc_returns mc) 0.95) as [e|var_95];
    [reflexivity|].
  destruct (_calculate_var (np env) (mc_returns mc) 0.99) as [e|var_99];
    [reflexivity|].
  destruct (_calculate_cvar (np env) (mc_returns mc) 0.95) as [e|cvar_95];
    [reflexivity|].
  destruct (_calculate_sharpe_ratio mc) as [e|sharpe]; [reflexivity|].
  destruct (_calculate_sortino_ratio (np env) mc) as [e|sortino];
    [reflexivity|].
  destruct (mc_prob_positive mc) as [pp|]; cbn [fsub fmul fint];
    [|reflexivity].
  unfold db_add_commit, ret. cbn [db rng ai_predictions_risk fst snd].
  eexists; eexists. split; [reflexivity|]. split; reflexivity.
Qed.


(** On doubles the stored probability does not determine the stored
    score: for one late payment, on-time rate 0.8, leverage 0.2 and
    sentiment 0.6 the scorer's capped sum is 14.999999999999998, so it
    returns the score 14 with the probability 0.0375, from which
    [int(p / 0.25 * 100)] gives back 15. *)
Lemma score_not_recoverable_from_probability_b64 :
  snd (_predict_default_risk_b64 near_fifteen_features) = 14%Z
  /\ fst (_predict_default_risk_b64 near_fifteen_features) == B64.lit 0.0375
  /\ Py.int (B64.mul (B64.div (fst (_predict_default_risk_b64
                                      near_fifteen_features))
                              (B64.lit 0.25)) 100) = 15%Z.
Proof.
  split; [|split]; vm_compute; reflexivity.
Qed.


(** ** Trend *)

Lemma trend_without_history d investor current_score :
  filter (fun p => opt_string_eqb (investor_id p) investor
                   && risk_type_eqb (rp_risk_type p) DEFAULT_RISK)
         (ai_predictions_risk d) = [] ->
  _calculate_risk_trend d investor current_score = (current_score, STABLE).
Proof.
  intro H. unfold _calculate_risk_trend, previous_prediction_query.
  rewrite H. reflexivity.
Qed.

Lemma trend_with_single_prior d investor current_score p :
  filter (fun p => opt_string_eqb (investor_id p) investor
                   && risk_type_eqb (rp_risk_type p) DEFAULT_RISK)
         (ai_predictions_risk d) = [p] ->
  _calculate_risk_trend d investor current_score = (current_score, STABLE).
Proof.
  intro H. unfold _calculate_risk_trend, previous_prediction_query.
  rewrite H. reflexivity.
Qed.

(** C2: the trend computation does not read the most recently recorded
    prior assessment.  With one prior assessment (score 10) and a current
    score of 25 it answers [(25, STABLE)] where the most recent prior gives
    [(10, DETERIORATING)]; with two (score 10, then score 48) and a current
    score of 50 it compares against the older one and answers
    [(10, DETERIORATING)] where the most recent prior gives [(48, STABLE)].
    End to end, the row recorded for that investor carries
    [previous_risk_score = 25] and trend STABLE. *)
Theorem C2_trend_skips_most_recent_prior :
  let one := db (with_predictions [prior_assessment 1690000000 10]) in
  let two := db (with_predictions [prior_assessment 1690000000 10;
                                   prior_assessment 1695000000 48]) in
  _calculate_risk_trend one "INV-1" 25 = (25%Z, STABLE)
  /\ trend_against_most_recent one "INV-1" 25 = (10%Z, DETERIORATING)
  /\ _calculate_risk_trend two "INV-1" 50 = (10%Z, DETERIORATING)
  /\ trend_against_most_recent two "INV-1" 50 = (48%Z, STABLE)
  /\ exists p,
       recorded (assess_investor_default_risk toy_env "INV-1" "12M" true
                   (with_predictions [prior_assessment 1690000000 10]))
       = [prior_assessment 1690000000 10; p]
       /\ risk_score p = 25%Z
       /\ previous_risk_score p = Some 25%Z
       /\ rp_risk_trend p = Some STABLE.
Proof.
  cbv zeta.
  split; [vm_compute; reflexivity|].
  split; [vm_compute; reflexivity|].
  split; [vm_compute; reflexivity|].
  split; [vm_compute; reflexivity|].
  eexists. split.
  - unfold recorded. vm_compute. reflexivity.
  - split; [reflexivity|]. split; reflexivity.
Qed.

(** ** Feature extraction *)

Lemma or_falsy x d : Py.truthy x = false -> Py.or_ x d = d.
Proof.
  destruct x as [q|]; simpl; [|reflexivity].
  destruct (Qeq_bool q 0); [reflexivity|discriminate].
Qed.

Lemma or_truthy x d : Py.truthy x = true -> Some (Py.or_ x d) = x.
Proof.
  destruct x as [q|]; simpl; [|discriminate].
  destruct (Qeq_bool q 0); [discriminate|reflexivity].
Qed.

Lemma or_nonzero x d : ~ d == 0 -> ~ Py.or_ x d == 0.
Proof.
  intro Hd. destruct x as [q|]; simpl; [|exact Hd].
  destruct (Qeq_bool q 0) eqn:E; [exact Hd|].
  intro H. apply Qeq_bool_iff in H. congruence.
Qed.

(** C9: when a stored feature row exists, every feature handed on is
    [column or default]: a column that is NULL or zero is replaced by the
    hard-coded default, any other value is passed through.  In particular a
    stored [on_time_payment_rate] of 0.0 is read as 0.9 and a stored
    [current_balance] of 0 as 1000000, and the scorer inputs whose default
    is not zero (on-time rate, leverage ratio, sentiment score) never reach
    the scorer as zero. *)
Theorem C9_falsy_columns_take_defaults d investor r :
  latest_feature_record d "INVESTOR" investor = Some r ->
  let f := _extract_risk_features d investor in
  Forall (fun '(column, feature, default) =>
            feature f = Py.or_ (column r) default
            /\ (Py.truthy (column r) = false -> feature f = default)
            /\ (Py.truthy (column r) = true -> Some (feature f) = column r))
         feature_columns
  /\ (fs_on_time_payment_rate r = Some 0.0 -> on_time_payment_rate f = 0.9)
  /\ (fs_current_balance r = Some 0 -> current_balance f = 1000000)
  /\ ~ on_time_payment_rate f == 0
  /\ ~ leverage_ratio f == 0
  /\ ~ recent_sentiment_score f == 0
  /\ ~ current_balance f == 0.
Proof.
  intros H f. subst f. unfold _extract_risk_features. rewrite H.
  split; [|split; [|split; [|repeat split]]].
  - unfold feature_columns.
    repeat (apply Forall_cons;
            [cbn; split; [reflexivity | split; [apply or_falsy | apply or_truthy]]|]).
    apply Forall_nil.
  - cbn. intro E. rewrite E. reflexivity.
  - cbn. intro E. rewrite E. reflexivity.
  - cbn. apply or_nonzero. intro E. vm_compute in E. discriminate.
  - cbn. apply or_nonzero. intro E. vm_compute in E. discriminate.
  - cbn. apply or_nonzero. intro E. vm_compute in E. discriminate.
  - cbn. apply or_nonzero. intro E. vm_compute in E. discriminate.
Qed.

Lemma C9_falsy_columns_take_defaults_witness :
  latest_feature_record zero_row_db "INVESTOR" "INV-0" = Some zero_row
  /\ on_time_payment_rate (_extract_risk_features zero_row_db "INV-0") = 0.9
  /\ current_balance (_extract_risk_features zero_row_db "INV-0") = 1000000.
Proof.
  assert (H : latest_feature_record zero_row_db "INVESTOR" "INV-0"
              = Some zero_row) by reflexivity.
  split; [exact H|].
  destruct (C9_falsy_columns_take_defaults zero_row_db "INV-0" zero_row H)
    as (_ & Hrate & Hbal & _).
  split; [apply Hrate | apply Hbal]; reflexivity.
Defined.

(** ** Scenario analysis *)

Lemma scenario_params_unknown s :
  ~ In s standard_scenarios ->
  dict_get scenario_params s
    (dict_get scenario_params "BASE" {| sp_return := 0.08; sp_volatility := 0.18 |})
  = {| sp_return := 0.08; sp_volatility := 0.18 |}.
Proof.
  intro H. unfold standard_scenarios in H. simpl in H.
  unfold scenario_params. cbn [dict_get].
  destruct (String.eqb_spec "BULL" s); [tauto|].
  destruct (String.eqb_spec "BASE" s); [tauto|].
  destruct (String.eqb_spec "BEAR" s); [tauto|].
  destruct (String.eqb_spec "TAIL_EVENT" s); [tauto|].
  reflexivity.
Qed.

(** C10: scenario analysis never rejects a name.  The result has one entry
    per requested name, in order and labelled with it; an entry for a name
    outside BULL, BASE, BEAR, TAIL_EVENT carries the BASE parameters
    (expected return 0.08, volatility 0.18) with probability 0.10; and an
    entry has probability 0.25 exactly when its name is BASE. *)
Theorem C10_unknown_scenario_gets_base_parameters features scenarios s :
  In s scenarios ->
  ~ In s standard_scenarios ->
  let results := _run_scenario_analysis features scenarios in
  map scenario results = scenarios
  /\ In {| scenario := s; sr_expected_return := 0.08;
           sr_volatility := 0.18; sr_probability := 0.10 |} results
  /\ (forall r, In r results ->
                (sr_probability r == 0.25 <-> scenario r = "BASE")).
Proof.
  intros Hin Hunknown results. subst results.
  unfold _run_scenario_analysis. split; [|split].
  - rewrite map_map. cbn [scenario]. apply map_id.
  - apply in_map_iff. exists s. split; [|exact Hin].
    rewrite (scenario_params_unknown s Hunknown). cbn [sp_return sp_volatility].
    assert (E : String.eqb s "BASE" = false).
    { apply String.eqb_neq. intro E. apply Hunknown. subst s.
      right; left; reflexivity. }
    rewrite E. reflexivity.
  - intros r Hr. apply in_map_iff in Hr. destruct Hr as (x & <- & _).
    cbn [sr_probability scenario].
    destruct (String.eqb_spec x "BASE") as [E|E].
    + split; intro; [exact E | reflexivity].
    + split; intro H; [|contradiction].
      vm_compute in H. discriminate.
Qed.

Lemma C10_unknown_scenario_gets_base_parameters_witness :
  _run_scenario_analysis (_extract_fund_features "FUND-1") ["BASE"; "RECOVERY"]
  = [ {| scenario := "BASE"; sr_expected_return := 0.08;
         sr_volatility := 0.18; sr_probability := 0.25 |};
      {| scenario := "RECOVERY"; sr_expected_return := 0.08;
         sr_volatility := 0.18; sr_probability := 0.10 |} ]
  /\ In {| scenario := "RECOVERY"; sr_expected_return := 0.08;
           sr_volatility := 0.18; sr_probability := 0.10 |}
        (_run_scenario_analysis (_extract_fund_features "FUND-1")
           ["BASE"; "RECOVERY"]).
Proof.
  split; [reflexivity|].
  apply (C10_unknown_scenario_gets_base_parameters
           (_extract_fund_features "FUND-1") ["BASE"; "RECOVERY"] "RECOVERY").
  - right; left; reflexivity.
  - unfold standard_scenarios. simpl.
    intros [H|[H|[H|[H|[]]]]]; discriminate H.
Defined.

(** ** Sorting the sample array *)

Section SortAsc.

Lemma insert_asc_length x l : List.length (insert_asc x l) = S (List.length l).
Proof.
  induction l as [|y l IH]; simpl; [reflexivity|].
  destruct (Qle_bool x y); simpl; [reflexivity|]. now rewrite IH.
Qed.

Lemma sort_asc_length l : List.length (sort_asc l) = List.length l.
Proof.
  induction l as [|x l IH]; simpl; [reflexivity|].
  unfold sort_asc in *. simpl. now rewrite insert_asc_length, IH.
Qed.

Lemma insert_asc_In x y l : In y (insert_asc x l) <-> y = x \/ In y l.
Proof.
  induction l as [|z l IH]; simpl.
  - intuition.
  - destruct (Qle_bool x z); simpl; [intuition|].
    rewrite IH. intuition.
Qed.

Lemma sort_asc_In y l : In y (sort_asc l) <-> In y l.
Proof.
  induction l as [|x l IH]; simpl; [reflexivity|].
  unfold sort_asc in *. simpl. rewrite insert_asc_In, IH. intuition.
Qed.

Lemma insert_asc_sorted x l :
  StronglySorted Qle l -> StronglySorted Qle (insert_asc x l).
Proof.
  induction 1 as [|y l Hs IH Hall]; simpl.
  - constructor; constructor.
  - destruct (Qle_bool x y) eqn:E.
    + apply Qle_bool_iff in E. constructor.
      * constructor; assumption.
      * constructor; [exact E|].
        eapply Forall_impl; [|exact Hall].
        intros z Hz. eapply Qle_trans; eassumption.
    + assert (Hyx : y <= x).
      { apply Qlt_le_weak, Qnot_le_lt. intro L.
        apply Qle_bool_iff in L. congruence. }
      constructor; [exact IH|].
      apply Forall_forall. intros z Hz. apply insert_asc_In in Hz.
      destruct Hz as [->|Hz]; [exact Hyx|].
      rewrite Forall_forall in Hall. now apply Hall.
Qed.

Lemma sort_asc_sorted l : StronglySorted Qle (sort_asc l).
Proof.
  induction l as [|x l IH]; [constructor|].
  unfold sort_asc in *. simpl. now apply insert_asc_sorted.
Qed.

Lemma sorted_nth l :
  StronglySorted Qle l ->
  forall i j, (i <= j)%nat -> (j < List.length l)%nat ->
              nth i l 0 <= nth j l 0.
Proof.
  induction 1 as [|x l Hs IH Hall]; intros i j Hij Hj; simpl in Hj; [lia|].
  destruct i as [|i], j as [|j]; simpl; try lia.
  - apply Qle_refl.
  - rewrite Forall_forall in Hall. apply Hall, nth_In. lia.
  - apply IH; lia.
Qed.

End SortAsc.

(** ** Linear interpolation between order statistics *)

Section Interpolation.

Variable s : list Q.
Hypothesis s_sorted : StronglySorted Qle s.
Hypothesis s_nonempty : (0 < List.length s)%nat.

Let top : Q := inject_Z (Z.of_nat (List.length s - 1)).

Lemma floor_index h :
  0 <= h -> h <= top ->
  (0 <= Qfloor h)%Z /\ (Z.to_nat (Qfloor h) <= List.length s - 1)%nat.
Proof.
  intros H0 H1.
  assert (A : (0 <= Qfloor h)%Z).
  { change 0%Z with (Qfloor 0). now apply Qfloor_resp_le. }
  split; [exact A|].
  apply Qfloor_resp_le in H1. unfold top in H1. rewrite Qfloor_Z in H1. lia.
Qed.

Lemma fraction_bounds h :
  0 <= h - inject_Z (Qfloor h) /\ h - inject_Z (Qfloor h) <= 1.
Proof.
  pose proof (Qfloor_le h) as L. pose proof (Qlt_floor h) as U.
  rewrite inject_Z_plus in U. change (inject_Z 1) with 1 in U.
  split; lra.
Qed.

Lemma lerp_at_bounds h :
  0 <= h -> h <= top ->
  nth (Z.to_nat (Qfloor h)) s 0 <= lerp_at s h
  /\ lerp_at s h
     <= nth (Nat.min (Z.to_nat (Qfloor h) + 1) (List.length s - 1)) s 0.
Proof.
  intros H0 H1. destruct (floor_index h H0 H1) as [_ Hk].
  destruct (fraction_bounds h) as [G0 G1].
  unfold lerp_at.
  set (k := Z.to_nat (Qfloor h)) in *.
  set (g := h - inject_Z (Qfloor h)) in *.
  assert (Hab : nth k s 0 <= nth (Nat.min (k + 1) (List.length s - 1)) s 0).
  { apply sorted_nth; [exact s_sorted| |]; lia. }
  set (a := nth k s 0) in *.
  set (b := nth (Nat.min (k + 1) (List.length s - 1)) s 0) in *.
  split; nra.
Qed.

Lemma lerp_at_monotone h1 h2 :
  0 <= h1 -> h1 <= h2 -> h2 <= top -> lerp_at s h1 <= lerp_at s h2.
Proof.
  intros H0 H12 H2.
  assert (H1 : h1 <= top) by (eapply Qle_trans; eassumption).
  assert (H0' : 0 <= h2) by (eapply Qle_trans; eassumption).
  destruct (floor_index h1 H0 H1) as [F1 K1].
  destruct (floor_index h2 H0' H2) as [F2 K2].
  pose proof (Qfloor_resp_le _ _ H12) as Hfl.
  destruct (Z.eq_dec (Qfloor h1) (Qfloor h2)) as [E|N].
  - destruct (fraction_bounds h1) as [G0 _].
    unfold lerp_at. rewrite <- E.
    set (k := Z.to_nat (Qfloor h1)) in *.
    assert (Hab : nth k s 0 <= nth (Nat.min (k + 1) (List.length s - 1)) s 0).
    { apply sorted_nth; [exact s_sorted| |]; lia. }
    set (a := nth k s 0) in *.
    set (b := nth (Nat.min (k + 1) (List.length s - 1)) s 0) in *.
    nra.
  - destruct (lerp_at_bounds h1 H0 H1) as [_ U].
    destruct (lerp_at_bounds h2 H0' H2) as [L _].
    eapply Qle_trans; [exact U|]. eapply Qle_trans; [|exact L].
    apply sorted_nth; [exact s_sorted| |]; lia.
Qed.

Lemma lerp_at_above_first h :
  0 <= h -> h <= top -> nth 0 s 0 <= lerp_at s h.
Proof.
  intros H0 H1. destruct (lerp_at_bounds h H0 H1) as [L _].
  destruct (floor_index h H0 H1) as [_ K].
  eapply Qle_trans; [|exact L].
  apply sorted_nth; [exact s_sorted| |]; lia.
Qed.

End Interpolation.

(** ** Percentiles of finite samples *)

Lemma Qlen_nonneg (l : list Q) : 0 <= Qlen l.
Proof.
  unfold Qlen. change 0 with (inject_Z 0). rewrite <- Zle_Qle. lia.
Qed.

Lemma index_nonneg (k : nat) : 0 <= inject_Z (Z.of_nat k).
Proof. change 0 with (inject_Z 0). rewrite <- Zle_Qle. lia. Qed.

Lemma percentile_linear_monotone l q1 q2 :
  l <> [] -> 0 <= q1 -> q1 <= q2 -> q2 <= 100 ->
  percentile_linear l q1 <= percentile_linear l q2.
Proof.
  intros Hl H0 H12 H2. unfold percentile_linear.
  pose proof (index_nonneg (List.length l - 1)) as Ht.
  apply lerp_at_monotone.
  - apply sort_asc_sorted.
  - rewrite sort_asc_length. destruct l; [congruence|simpl; lia].
  - set (t := inject_Z (Z.of_nat (List.length l - 1))) in *.
    assert (0 <= q1 / 100) by (apply Qle_shift_div_l; lra). nra.
  - set (t := inject_Z (Z.of_nat (List.length l - 1))) in *.
    assert (q1 / 100 <= q2 / 100).
    { unfold Qdiv. apply Qmult_le_compat_r; [exact H12|].
      vm_compute. discriminate. }
    nra.
  - rewrite sort_asc_length.
    set (t := inject_Z (Z.of_nat (List.length l - 1))) in *.
    assert (q2 / 100 <= 1) by (apply Qle_shift_div_r; lra). nra.
Qed.

Lemma percentile_linear_above_some l q :
  l <> [] -> 0 <= q -> q <= 100 ->
  exists x, In x l /\ x <= percentile_linear l q.
Proof.
  intros Hl H0 H1.
  assert (Hn : (0 < List.length (sort_asc l))%nat).
  { rewrite sort_asc_length. destruct l; [congruence|simpl; lia]. }
  exists (nth 0 (sort_asc l) 0). split.
  - apply sort_asc_In, nth_In. exact Hn.
  - unfold percentile_linear.
    pose proof (index_nonneg (List.length l - 1)) as Ht.
    apply lerp_at_above_first.
    + apply sort_asc_sorted.
    + exact Hn.
    + set (t := inject_Z (Z.of_nat (List.length l - 1))) in *.
      assert (0 <= q / 100) by (apply Qle_shift_div_l; lra). nra.
    + rewrite sort_asc_length.
      set (t := inject_Z (Z.of_nat (List.length l - 1))) in *.
      assert (q / 100 <= 1) by (apply Qle_shift_div_r; lra). nra.
Qed.

(** ** Arrays without NaN *)

Lemma finite_values_map a : forall l, finite_values a = Some l -> a = map Fin l.
Proof.
  induction a as [|x a IH]; intros l H; simpl in H.
  - inversion H. reflexivity.
  - destruct x as [q|]; [|discriminate].
    destruct (finite_values a) as [l'|]; [|discriminate].
    inversion H; subst. simpl. f_equal. now apply IH.
Qed.

Lemma finite_values_Fin l : finite_values (map Fin l) = Some l.
Proof.
  induction l as [|x l IH]; simpl; [reflexivity|]. now rewrite IH.
Qed.

Lemma in_range q :
  0 <= q -> q <= 100 -> Py.ltb q 0 || Py.ltb 100 q = false.
Proof.
  intros H0 H1. apply orb_false_iff. split; apply ltb_ge; assumption.
Qed.

Lemma np_percentile_finite n a l q :
  a <> [] -> finite_values a = Some l -> 0 <= q -> q <= 100 ->
  np_percentile n a q = inr (Fin (percentile_linear l q)).
Proof.
  intros Ha Hl H0 H1. unfold np_percentile.
  rewrite (in_range q H0 H1). destruct a; [congruence|].
  now rewrite Hl.
Qed.

Lemma finite_nonempty a l : a <> [] -> finite_values a = Some l -> l <> [].
Proof.
  intros Ha Hl E. subst l. apply finite_values_map in Hl. simpl in Hl.
  contradiction.
Qed.

Lemma calculate_var_finite n a l c :
  a <> [] -> finite_values a = Some l -> 0 <= c -> c <= 1 ->
  _calculate_var n a c = inr (Fin (percentile_linear l ((1 - c) * 100))).
Proof.
  intros Ha Hl H0 H1. unfold _calculate_var.
  apply np_percentile_finite; try assumption; lra.
Qed.

(** ** Ordering of the risk metrics *)

Lemma monte_carlo_summary_finite n a l :
  a <> [] -> finite_values a = Some l ->
  exists lowest,
    monte_carlo_summary n a
    = inr {| mc_returns := a;
             mc_expected_return := np_mean a;
             mc_volatility := np_std n a;
             mc_max_drawdown := Fin lowest;
             mc_prob_positive := np_mean (positive_mask a);
             mc_p5 := Fin (percentile_linear l 5);
             mc_p25 := Fin (percentile_linear l 25);
             mc_p50 := Fin (percentile_linear l 50);
             mc_p75 := Fin (percentile_linear l 75);
             mc_p95 := Fin (percentile_linear l 95) |}.
Proof.
  intros Ha Hl. unfold monte_carlo_summary.
  assert (R : forall q, 0 <= q -> q <= 100 ->
                        np_percentile n a q = inr (Fin (percentile_linear l q))).
  { intros. now apply np_percentile_finite. }
  rewrite !R by lra.
  pose proof (finite_nonempty a l Ha Hl) as Hne.
  unfold np_min. destruct a as [|x a]; [congruence|].
  rewrite Hl. destruct l as [|y l]; [congruence|].
  eexists. reflexivity.
Qed.

(** C7: for every non-empty array of (finite) simulated returns the
    percentile summaries the simulator reports satisfy
    p5 <= p25 <= p50 <= p75 <= p95, and VaR(0.99) <= VaR(0.95) on the same
    array. *)
Theorem C7_percentiles_ordered n a l :
  a <> [] -> finite_values a = Some l ->
  exists mc p5 p25 p50 p75 p95 var_99 var_95,
    monte_carlo_summary n a = inr mc
    /\ mc_p5 mc = Fin p5 /\ mc_p25 mc = Fin p25 /\ mc_p50 mc = Fin p50
    /\ mc_p75 mc = Fin p75 /\ mc_p95 mc = Fin p95
    /\ p5 <= p25 /\ p25 <= p50 /\ p50 <= p75 /\ p75 <= p95
    /\ _calculate_var n a 0.99 = inr (Fin var_99)
    /\ _calculate_var n a 0.95 = inr (Fin var_95)
    /\ var_99 <= var_95.
Proof.
  intros Ha Hl.
  destruct (monte_carlo_summary_finite n a l Ha Hl) as [lowest Hmc].
  pose proof (finite_nonempty a l Ha Hl) as Hne.
  eexists. exists (percentile_linear l 5), (percentile_linear l 25),
    (percentile_linear l 50), (percentile_linear l 75),
    (percentile_linear l 95), (percentile_linear l ((1 - 0.99) * 100)),
    (percentile_linear l ((1 - 0.95) * 100)).
  split; [exact Hmc|]. cbn [mc_p5 mc_p25 mc_p50 mc_p75 mc_p95].
  repeat (split; [reflexivity|]).
  repeat (split; [apply percentile_linear_monotone; [exact Hne|lra..]|]).
  split; [apply calculate_var_finite; [assumption..|lra|lra]|].
  split; [apply calculate_var_finite; [assumption..|lra|lra]|].
  apply percentile_linear_monotone; [exact Hne|lra..].
Qed.

Lemma C7_percentiles_ordered_witness :
  exists mc p5 p25 p50 p75 p95 var_99 var_95,
    monte_carlo_summary toy_numpy five_returns = inr mc
    /\ mc_p5 mc = Fin p5 /\ mc_p25 mc = Fin p25 /\ mc_p50 mc = Fin p50
    /\ mc_p75 mc = Fin p75 /\ mc_p95 mc = Fin p95
    /\ p5 <= p25 /\ p25 <= p50 /\ p50 <= p75 /\ p75 <= p95
    /\ _calculate_var toy_numpy five_returns 0.99 = inr (Fin var_99)
    /\ _calculate_var toy_numpy five_returns 0.95 = inr (Fin var_95)
    /\ var_99 <= var_95.
Proof.
  apply (C7_percentiles_ordered toy_numpy five_returns
           [0.08; 0.12; -0.03; 0.15; 0.09]).
  - discriminate.
  - reflexivity.
Defined.

(** ** Tail mean *)

Lemma Qlen_cons x (l : list Q) : Qlen (x :: l) == Qlen l + 1.
Proof.
  unfold Qlen. cbn [List.length]. rewrite Nat2Z.inj_succ, <- Z.add_1_r.
  rewrite inject_Z_plus. reflexivity.
Qed.

Lemma Qsum_bounded v (l : list Q) :
  Forall (fun x => x <= v) l -> Qsum l <= Qlen l * v.
Proof.
  induction 1 as [|x l Hx Hl IH].
  - unfold Qsum, Qlen. cbn [fold_right List.length Z.of_nat].
    change (inject_Z 0) with 0. lra.
  - rewrite Qlen_cons. unfold Qsum in *. cbn [fold_right]. lra.
Qed.

Lemma mean_bounded v (l : list Q) :
  l <> [] -> Forall (fun x => x <= v) l ->
  exists m, mean l = Fin m /\ m <= v.
Proof.
  intros Hne Hall. destruct l as [|x l]; [congruence|].
  exists (Qsum (x :: l) / Qlen (x :: l)). split; [reflexivity|].
  apply Qle_shift_div_r.
  - rewrite Qlen_cons. pose proof (Qlen_nonneg l). lra.
  - rewrite (Qmult_comm v). now apply Qsum_bounded.
Qed.

Lemma tail_of_finite l v :
  tail_at_or_below (map Fin l) (Fin v)
  = map Fin (filter (fun x => Py.leb x v) l).
Proof.
  unfold tail_at_or_below.
  induction l as [|x l IH]; simpl; [reflexivity|].
  destruct (Py.leb x v); simpl; now rewrite IH.
Qed.

Lemma tail_below_var n a l c :
  a <> [] -> finite_values a = Some l -> 0 <= c -> c <= 1 ->
  exists var t,
    _calculate_var n a c = inr (Fin var)
    /\ tail_at_or_below a (Fin var) = map Fin t
    /\ t <> []
    /\ Forall (fun r => r <= var) t
    /\ (forall r, In r t -> In r l)
    /\ _calculate_cvar n a c = inr (Fin (Qsum t / Qlen t))
    /\ Qsum t / Qlen t <= var.
Proof.
  intros Ha Hl H0 H1.
  pose proof (finite_nonempty a l Ha Hl) as Hne.
  assert (Hvar : _calculate_var n a c
                 = inr (Fin (percentile_linear l ((1 - c) * 100)))).
  { apply calculate_var_finite; try assumption; lra. }
  set (var := percentile_linear l ((1 - c) * 100)) in *.
  destruct (percentile_linear_above_some l ((1 - c) * 100) Hne)
    as (x & Hx & Hxv); [lra..|]. fold var in Hxv.
  pose proof (finite_values_map a l Hl) as ->.
  set (t := filter (fun x => Py.leb x var) l).
  assert (Htail : t <> []).
  { intro E.
    assert (Hin : In x t).
    { apply filter_In. split; [exact Hx|]. now apply leb_le. }
    rewrite E in Hin. destruct Hin. }
  assert (Hall : Forall (fun r => r <= var) t).
  { apply Forall_forall. intros y Hy. apply filter_In in Hy.
    destruct Hy as [_ Hy]. now apply leb_le. }
  destruct (mean_bounded var t Htail Hall) as (m & Hm & Hmv).
  assert (Em : mean t = Fin (Qsum t / Qlen t)).
  { destruct t; [congruence|reflexivity]. }
  rewrite Em in Hm. inversion Hm as [Hm']. clear Hm. rewrite <- Hm' in Hmv.
  exists var, t. split; [exact Hvar|].
  split; [apply tail_of_finite|]. split; [exact Htail|].
  split; [exact Hall|].
  split; [intros r Hr; apply filter_In in Hr; tauto|].
  split; [|exact Hmv].
  unfold _calculate_cvar. rewrite Hvar, tail_of_finite. fold t.
  unfold np_mean. rewrite finite_values_Fin, Em. reflexivity.
Qed.

Lemma tail_below_nan a : tail_at_or_below a NaN = [].
Proof.
  unfold tail_at_or_below. induction a as [|r a IH]; [reflexivity|].
  cbn [filter]. destruct r; cbn [fleb]; exact IH.
Qed.

(** C6, counterexample: on three returns that are all the double 0.1, at
    confidence 0.95, binary64 evaluation gives VaR = 0.1 and
    CVaR = 0.10000000000000002: the rounded mean of the tail exceeds the
    cutoff. *)
Lemma C6_rounded_mean_exceeds_var :
  exists var cvar,
    _calculate_var_b64 toy_numpy constant_returns (B64.lit 0.95)
    = inr (Fin var)
    /\ _calculate_cvar_b64 toy_numpy constant_returns (B64.lit 0.95)
       = inr (Fin cvar)
    /\ var == B64.lit 0.1
    /\ cvar == B64.lit 0.10000000000000002
    /\ ~ cvar <= var.
Proof.
  eexists. eexists. split; [|split; [|split; [|split]]].
  - vm_compute. reflexivity.
  - vm_compute. reflexivity.
  - vm_compute. reflexivity.
  - vm_compute. reflexivity.
  - vm_compute. intro H. apply H. reflexivity.
Qed.

(** C6, amended: for every non-empty return array and every confidence c
    with 0 < c < 1, CVaR(c) is [np.mean] of the returns at or below VaR(c),
    and the code has no separate branch for an empty tail.  On an array of
    finite returns VaR(c) is finite, the tail is never empty and each of its
    elements is a return that is at most VaR(c), so the exact mean of the
    tail is at most VaR(c); the mean [np.mean] returns is that mean rounded,
    and can exceed VaR(c).  The tail is empty only on an array that holds a
    NaN, and then VaR and CVaR are both NaN. *)
Theorem C6_cvar_is_tail_mean n a c :
  a <> [] -> 0 < c -> c < 1 ->
  match finite_values a with
  | Some l =>
      exists var t,
        _calculate_var n a c = inr (Fin var)
        /\ tail_at_or_below a (Fin var) = map Fin t
        /\ t <> []
        /\ Forall (fun r => r <= var) t
        /\ (forall r, In r t -> In r l)
        /\ _calculate_cvar n a c
           = inr (np_mean (tail_at_or_below a (Fin var)))
        /\ Qsum t / Qlen t <= var
  | None =>
      _calculate_var n a c = inr NaN
      /\ tail_at_or_below a NaN = []
      /\ _calculate_cvar n a c = inr NaN
  end.
Proof.
  intros Ha H0 H1. destruct (finite_values a) as [l|] eqn:Hl.
  - destruct (tail_below_var n a l c) as (var & t & Hvar & Ht & Hne & Hall
                                           & Hin & _ & Hmean);
      try assumption; try lra.
    exists var, t. repeat (split; [assumption|]).
    split; [|exact Hmean].
    unfold _calculate_cvar. now rewrite Hvar.
  - assert (Hvar : _calculate_var n a c = inr NaN).
    { unfold _calculate_var, np_percentile.
      rewrite in_range by lra. destruct a; [congruence|]. now rewrite Hl. }
    split; [exact Hvar|]. split; [apply tail_below_nan|].
    unfold _calculate_cvar. rewrite Hvar, tail_below_nan. reflexivity.
Qed.

Lemma C6_cvar_is_tail_mean_witness :
  exists var t,
    _calculate_var toy_numpy five_returns 0.95 = inr (Fin var)
    /\ tail_at_or_below five_returns (Fin var) = map Fin t
    /\ t <> []
    /\ Forall (fun r => r <= var) t
    /\ (forall r, In r t -> In r [0.08; 0.12; -0.03; 0.15; 0.09])
    /\ _calculate_cvar toy_numpy five_returns 0.95
       = inr (np_mean (tail_at_or_below five_returns (Fin var)))
    /\ Qsum t / Qlen t <= var.
Proof.
  apply (C6_cvar_is_tail_mean toy_numpy five_returns 0.95).
  - discriminate.
  - reflexivity.
  - reflexivity.
Defined.

(** ** What the simulator draws *)

Lemma N_SAMPLES_succ : N_SAMPLES = S (Nat.pred N_SAMPLES).
Proof. unfold N_SAMPLES. lia. Qed.

Lemma samples_length n s features :
  List.length (samples_for_seed n s features) = N_SAMPLES.
Proof. unfold samples_for_seed. now rewrite length_map, length_seq. Qed.

Lemma samples_nonempty n s features : samples_for_seed n s features <> [].
Proof.
  intro E. apply (f_equal (@List.length _)) in E.
  rewrite samples_length, N_SAMPLES_succ in E. discriminate E.
Qed.

Lemma samples_first n s features :
  nth 0 (samples_for_seed n s features) NaN
  = fadd (mean (historical_returns features))
         (Fin (ff_volatility features * seeded n s 0)).
Proof.
  unfold samples_for_seed. rewrite N_SAMPLES_succ. reflexivity.
Qed.

Lemma samples_finite n features m :
  mean (historical_returns features) = Fin m ->
  finite_values (seed_42_samples n features)
  = Some (finite_samples n m features).
Proof.
  intro Hm. unfold seed_42_samples, samples_for_seed, finite_samples.
  rewrite Hm. induction (seq 0 N_SAMPLES) as [|i l IH]; [reflexivity|].
  simpl. simpl in IH. now rewrite IH.
Qed.

Lemma samples_nan n features :
  mean (historical_returns features) = NaN ->
  finite_values (seed_42_samples n features) = None.
Proof.
  intro Hm. unfold seed_42_samples, samples_for_seed.
  rewrite Hm, N_SAMPLES_succ. reflexivity.
Qed.

Lemma monte_carlo_summary_returns n a mc :
  monte_carlo_summary n a = inr mc -> mc_returns mc = a.
Proof.
  unfold monte_carlo_summary.
  destruct (np_min a); [discriminate|].
  destruct (np_percentile n a 5); [discriminate|].
  destruct (np_percentile n a 25); [discriminate|].
  destruct (np_percentile n a 50); [discriminate|].
  destruct (np_percentile n a 75); [discriminate|].
  destruct (np_percentile n a 95); [discriminate|].
  intro H. inversion H. reflexivity.
Qed.

Lemma monte_carlo_summary_nan n a :
  a <> [] -> finite_values a = None ->
  monte_carlo_summary n a
  = inr {| mc_returns := a;
           mc_expected_return := NaN;
           mc_volatility := NaN;
           mc_max_drawdown := NaN;
           mc_prob_positive := np_mean (positive_mask a);
           mc_p5 := NaN; mc_p25 := NaN; mc_p50 := NaN;
           mc_p75 := NaN; mc_p95 := NaN |}.
Proof.
  intros Ha Hf. unfold monte_carlo_summary, np_min, np_percentile, np_mean,
    np_std.
  destruct a as [|x a]; [congruence|]. rewrite Hf. reflexivity.
Qed.

Lemma simulator_on_empty_series env features w :
  historical_returns features = [] -> 0 <= ff_volatility features ->
  _run_monte_carlo_simulation env features w
  = (inr {| mc_returns := seed_42_samples (np env) features;
            mc_expected_return := NaN;
            mc_volatility := NaN;
            mc_max_drawdown := NaN;
            mc_prob_positive :=
              np_mean (positive_mask (seed_42_samples (np env) features));
            mc_p5 := NaN; mc_p25 := NaN; mc_p50 := NaN;
            mc_p75 := NaN; mc_p95 := NaN |},
     {| db := db w;
        rng := fun i => seeded (np env) 42 (N_SAMPLES + i)%nat |}).
Proof.
  intros Hh Hv. rewrite simulator_spec.
  apply ltb_ge in Hv. rewrite Hv.
  rewrite monte_carlo_summary_nan; [reflexivity| |].
  - apply samples_nonempty.
  - apply samples_nan. rewrite Hh. reflexivity.
Qed.

(** ** Degenerate simulation input *)

(** C5, counterexample: handed a zero-length historical series, the
    simulator is not stopped by any check; it returns normally and its
    mean and percentiles are NaN. *)
Lemma C5_empty_series_not_rejected :
  exists mc w',
    _run_monte_carlo_simulation toy_env empty_history_features scenario_world
    = (inr mc, w')
    /\ mc_expected_return mc = NaN
    /\ mc_p5 mc = NaN
    /\ mc_p50 mc = NaN
    /\ mc_p95 mc = NaN.
Proof.
  eexists. eexists. split.
  - apply simulator_on_empty_series; [reflexivity|].
    vm_compute. discriminate.
  - cbn. repeat split.
Qed.

(** C5, amended: the fund-risk path has no precondition check on the
    historical series.  The simulator accepts a zero-length series: it draws
    its 10,000 samples around a NaN mean and returns NaN for the expected
    return, volatility, drawdown and every percentile.  The path as written
    never hands it such a series only because the feature extractor is a
    placeholder that returns the same five returns for every fund, for
    which the 10,000 samples are all finite. *)
Theorem C5_no_precondition_check env features w :
  historical_returns features = [] -> 0 <= ff_volatility features ->
  (exists mc w',
     _run_monte_carlo_simulation env features w = (inr mc, w')
     /\ List.length (mc_returns mc) = N_SAMPLES
     /\ mc_expected_return mc = NaN /\ mc_volatility mc = NaN
     /\ mc_max_drawdown mc = NaN
     /\ mc_p5 mc = NaN /\ mc_p25 mc = NaN /\ mc_p50 mc = NaN
     /\ mc_p75 mc = NaN /\ mc_p95 mc = NaN)
  /\ (forall fund,
        List.length (historical_returns (_extract_fund_features fund)) = 5%nat
        /\ exists m,
             mean (historical_returns (_extract_fund_features fund)) = Fin m
             /\ finite_values (seed_42_samples (np env) (_extract_fund_features fund))
                = Some (finite_samples (np env) m (_extract_fund_features fund))).
Proof.
  intros Hh Hv. split.
  - eexists. eexists. split.
    + apply simulator_on_empty_series; assumption.
    + cbn [mc_returns mc_expected_return mc_volatility mc_max_drawdown
           mc_p5 mc_p25 mc_p50 mc_p75 mc_p95].
      split; [apply samples_length|]. repeat split.
  - intro fund. split; [reflexivity|].
    eexists. split; [reflexivity|]. apply samples_finite. reflexivity.
Qed.

Lemma C5_no_precondition_check_witness :
  exists mc w',
    _run_monte_carlo_simulation toy_env empty_history_features scenario_world
    = (inr mc, w')
    /\ List.length (mc_returns mc) = N_SAMPLES
    /\ mc_expected_return mc = NaN /\ mc_volatility mc = NaN
    /\ mc_max_drawdown mc = NaN
    /\ mc_p5 mc = NaN /\ mc_p25 mc = NaN /\ mc_p50 mc = NaN
    /\ mc_p75 mc = NaN /\ mc_p95 mc = NaN.
Proof.
  apply (C5_no_precondition_check toy_env empty_history_features
           scenario_world).
  - reflexivity.
  - vm_compute. discriminate.
Defined.

(** ** Reproducibility *)

(** C3, counterexample: the simulator takes no seed and works on the
    process-wide generator.  A caller whose generator was seeded with 7
    receives the samples of seed 42, not those of seed 7, and finds the
    generator moved to seed 42's stream afterwards. *)
Lemma C3_caller_seed_ignored :
  let features := _extract_fund_features "FUND-1" in
  let caller := {| db := db scenario_world; rng := seeded toy_numpy 7 |} in
  exists mc w',
    _run_monte_carlo_simulation toy_env features caller = (inr mc, w')
    /\ mc_returns mc = samples_for_seed toy_numpy 42 features
    /\ mc_returns mc <> samples_for_seed toy_numpy 7 features
    /\ rng w' 0%nat = seeded toy_numpy 42 N_SAMPLES
    /\ ~ rng w' 0%nat == rng caller N_SAMPLES.
Proof.
  intros features caller.
  destruct (monte_carlo_summary_finite toy_numpy
              (seed_42_samples toy_numpy features)
              (finite_samples toy_numpy
                 ((0.08 + (0.12 + (-0.03 + (0.15 + (0.09 + 0))))) / Qlen [0.08; 0.12; -0.03; 0.15; 0.09])
                 features))
    as [lowest Hmc].
  { apply samples_nonempty. }
  { apply samples_finite. reflexivity. }
  eexists. eexists. split; [|split; [|split; [|split]]].
  - rewrite simulator_spec.
    change (Py.ltb (ff_volatility features) 0) with false. cbv iota.
    change (np toy_env) with toy_numpy. rewrite Hmc. reflexivity.
  - reflexivity.
  - cbn [mc_returns]. unfold seed_42_samples. intro E.
    apply (f_equal (fun a => nth 0 a NaN)) in E.
    rewrite !samples_first in E. vm_compute in E. discriminate E.
  - cbn [rng]. rewrite Nat.add_0_r. reflexivity.
  - subst caller. cbn [rng]. rewrite Nat.add_0_r. unfold toy_numpy.
    cbn [seeded]. intro E. rewrite inject_Z_injective in E. lia.
Qed.

Lemma monte_carlo_summary_total n a :
  a <> [] -> exists mc, monte_carlo_summary n a = inr mc.
Proof.
  intro Ha. destruct (finite_values a) as [l|] eqn:E.
  - destruct (monte_carlo_summary_finite n a l Ha E) as [lowest H].
    eexists. exact H.
  - eexists. apply monte_carlo_summary_nan; assumption.
Qed.

(** C3, amended: the simulator has no seed parameter; on every call it
    reseeds the process-wide generator with the constant 42 and draws from
    it.  Hence, for fixed historical returns and volatility, two invocations
    return the same result whatever state the generator was in before
    either of them: the same sample array (the first 10,000 deviates of
    seed 42, scaled and shifted) and the same derived summaries, so every
    metric computed from them, [var_95] included, coincides.  Both calls
    leave the process-wide generator at the same point of seed 42's
    stream. *)
Theorem C3_fixed_seed_reproducible env features w1 w2 :
  0 <= ff_volatility features ->
  exists mc,
    fst (_run_monte_carlo_simulation env features w1) = inr mc
    /\ fst (_run_monte_carlo_simulation env features w2) = inr mc
    /\ mc_returns mc = samples_for_seed (np env) 42 features
    /\ (forall i, rng (snd (_run_monte_carlo_simulation env features w1)) i
                  = seeded (np env) 42 (N_SAMPLES + i)%nat)
    /\ (forall i, rng (snd (_run_monte_carlo_simulation env features w2)) i
                  = seeded (np env) 42 (N_SAMPLES + i)%nat).
Proof.
  intro Hv. apply ltb_ge in Hv.
  rewrite !simulator_spec, Hv. cbn [fst snd rng].
  destruct (monte_carlo_summary_total (np env)
              (seed_42_samples (np env) features)) as [mc Hmc].
  { apply samples_nonempty. }
  exists mc. split; [exact Hmc|]. split; [exact Hmc|].
  split; [exact (monte_carlo_summary_returns _ _ _ Hmc)|].
  split; reflexivity.
Qed.

Lemma C3_fixed_seed_reproducible_witness :
  exists mc,
    fst (_run_monte_carlo_simulation toy_env (_extract_fund_features "FUND-1")
           scenario_world) = inr mc
    /\ fst (_run_monte_carlo_simulation toy_env (_extract_fund_features "FUND-1")
              reseeded_world) = inr mc
    /\ mc_returns mc
       = samples_for_seed toy_numpy 42 (_extract_fund_features "FUND-1").
Proof.
  destruct (C3_fixed_seed_reproducible toy_env (_extract_fund_features "FUND-1")
              scenario_world reseeded_world)
    as (mc & H1 & H2 & H3 & _).
  - vm_compute. discriminate.
  - exists mc. split; [exact H1|]. split; [exact H2|exact H3].
Defined.

(** ** The fund path does record a row *)

Lemma positive_mask_finite a :
  exists l, finite_values (positive_mask a) = Some l
            /\ List.length l = List.length a.
Proof.
  unfold positive_mask. induction a as [|r a (l & Hl & Hlen)].
  - exists []. split; reflexivity.
  - cbn [map]. destruct (fltb (Fin 0) r); cbn [finite_values]; rewrite Hl;
      eexists; (split; [reflexivity|]); cbn [List.length]; now rewrite Hlen.
Qed.

Lemma mean_of_nonempty (l : list Q) : l <> [] -> exists m, mean l = Fin m.
Proof.
  destruct l; [congruence|]. intros _. eexists. reflexivity.
Qed.

Lemma prob_positive_finite a :
  a <> [] -> exists pp, np_mean (positive_mask a) = Fin pp.
Proof.
  intro Ha. destruct (positive_mask_finite a) as (l & Hl & Hlen).
  unfold np_mean. rewrite Hl. apply mean_of_nonempty.
  intro E. subst l. destruct a; [congruence|discriminate].
Qed.

Lemma np_std_finite n a l :
  a <> [] -> finite_values a = Some l -> np_std n a = Fin (std n l).
Proof.
  intros Ha Hl. unfold np_std. destruct a; [congruence|]. now rewrite Hl.
Qed.

Lemma fdiv_nonzero x y :
  ~ y == 0 -> fdiv (Fin x) (Fin y) = inr (Fin (x / y)).
Proof.
  intro Hy. unfold fdiv. destruct (Qeq_bool y 0) eqn:E; [|reflexivity].
  apply Qeq_bool_iff in E. contradiction.
Qed.

Lemma filter_finite (f : pyfloat -> bool) l :
  exists l', finite_values (filter f (map Fin l)) = Some l'.
Proof.
  induction l as [|x l (l' & IH)]; [exists []; reflexivity|].
  cbn [map filter]. destruct (f (Fin x)).
  - cbn [finite_values]. rewrite IH. eexists. reflexivity.
  - exists l'. exact IH.
Qed.

Lemma fund_path_records_a_row env fund scenarios w model :
  find_production_model (db w) fund_risk_model_id = Some model ->
  (forall l, ~ std (np env) l == 0) ->
  exists response p,
    assess_fund_performance_risk env fund scenarios w
    = (inr response,
       {| db := {| ai_models := ai_models (db w);
                   feature_store := feature_store (db w);
                   ai_predictions_risk := ai_predictions_risk (db w) ++ [p] |};
          rng := fun i => seeded (np env) 42 (N_SAMPLES + i)%nat |})
    /\ fund_id p = Some fund
    /\ rp_risk_type p = FUND_PERFORMANCE_RISK.
Proof.
  intros Hmodel Hstd.
  set (features := _extract_fund_features fund).
  set (a := seed_42_samples (np env) features).
  assert (Ha : a <> []) by apply samples_nonempty.
  assert (Hmean : exists m, mean (historical_returns features) = Fin m)
    by (eexists; reflexivity).
  destruct Hmean as [m Hm].
  pose proof (samples_finite (np env) features m Hm) as Hl. fold a in Hl.
  set (l := finite_samples (np env) m features) in *.
  destruct (monte_carlo_summary_finite (np env) a l Ha Hl) as [lowest Hmc].
  destruct (prob_positive_finite a Ha) as [pp Hpp].
  destruct (tail_below_var (np env) a l 0.95 Ha Hl)
    as (var & t & Hvar & _ & _ & _ & _ & Hcvar & _);
    [vm_compute; discriminate..|].
  assert (Hvar99 : exists v, _calculate_var (np env) a 0.99 = inr (Fin v)).
  { eexists. apply (calculate_var_finite (np env) a l); try assumption; lra. }
  destruct Hvar99 as [var99 Hvar99].
  pose proof (finite_nonempty a l Ha Hl) as Hne.
  destruct (mean_of_nonempty l Hne) as [er Her].
  assert (Hnpmean : np_mean a = Fin er) by (unfold np_mean; now rewrite Hl).
  pose proof (np_std_finite (np env) a l Ha Hl) as Hvol.
  unfold assess_fund_performance_risk, bind, query.
  rewrite Hmodel, simulator_spec.
  change (Py.ltb (ff_volatility (_extract_fund_features fund)) 0) with false.
  cbv iota. fold features a. rewrite Hmc. unfold lift.
  cbn [mc_returns]. rewrite Hvar, Hvar99, Hcvar.
  unfold _calculate_sharpe_ratio.
  cbn [mc_expected_return mc_volatility].
  rewrite Hnpmean, Hvol. cbn [fsub]. rewrite (fdiv_nonzero _ _ (Hstd l)).
  unfold _calculate_sortino_ratio.
  cbn [mc_returns mc_expected_return mc_volatility fsub].
  assert (Hsortino :
    exists s,
      fdiv (Fin (er - 0.02))
        match filter (fun r => fltb r (Fin 0.02)) a with
        | [] => Fin (std (np env) l)
        | _ :: _ => np_std (np env) (filter (fun r => fltb r (Fin 0.02)) a)
        end = inr (Fin s)).
  { destruct (filter (fun r => fltb r (Fin 0.02)) a) as [|r rest] eqn:Ef.
    - eexists. apply fdiv_nonzero, Hstd.
    - rewrite (finite_values_map a l Hl) in Ef.
      destruct (filter_finite (fun r => fltb r (Fin 0.02)) l) as [l' Hl'].
      rewrite Ef in Hl'.
      rewrite (np_std_finite (np env) (r :: rest) l'); [|discriminate|exact Hl'].
      eexists. apply fdiv_nonzero, Hstd. }
  destruct Hsortino as [s Hs]. rewrite Hs.
  cbn [mc_prob_positive]. rewrite Hpp. cbn [fsub fmul fint].
  unfold db_add_commit, ret. cbn [db rng].
  eexists. eexists. split; [reflexivity|]. split; reflexivity.
Qed.

(** ** The default path does record a row *)

Lemma default_path_records_a_row env investor horizon include_trend w model :
  find_production_model (db w) default_risk_model_id = Some model ->
  (forall r, latest_feature_record (db w) "INVESTOR" investor = Some r ->
             fs_current_balance r <> None) ->
  exists response p,
    assess_investor_default_risk env investor horizon include_trend w
    = (inr response,
       {| db := {| ai_models := ai_models (db w);
                   feature_store := feature_store (db w);
                   ai_predictions_risk := ai_predictions_risk (db w) ++ [p] |};
          rng := rng w |})
    /\ investor_id p = Some investor
    /\ rp_risk_type p = DEFAULT_RISK
    /\ dr_risk_score response = risk_score p.
Proof.
  intros Hmodel Hbal.
  unfold assess_investor_default_risk, bind, query.
  rewrite Hmodel, predict_default_risk_eq.
  set (features := _extract_risk_features (db w) investor).
  set (raw := raw_score features).
  assert (Hexp : exists x,
            _calculate_loss_exposure (db w) investor (raw / 100 * 0.25) = inr x).
  { unfold _calculate_loss_exposure.
    destruct (latest_feature_record (db w) "INVESTOR" investor) as [r|] eqn:E.
    - specialize (Hbal r eq_refl).
      destruct (fs_current_balance r); [|congruence]. eexists. reflexivity.
    - eexists. reflexivity. }
  destruct Hexp as [x Hx].
  destruct include_trend; unfold ret, lift, raise; simpl.
  1: destruct (_calculate_risk_trend (db w) investor (Py.int raw)) as [pv tr].
  all: rewrite Hx; simpl.
  all: eexists; eexists; split; [reflexivity|]; repeat split.
Qed.

(** * Further properties of the service *)

(** ** Tiering *)

Lemma ltb_cases x y : {Py.ltb x y = true /\ x < y} + {Py.ltb x y = false /\ y <= x}.
Proof.
  destruct (Py.ltb x y) eqn:E.
  - left. split; [reflexivity|]. now apply ltb_lt.
  - right. split; [reflexivity|]. now apply ltb_ge.
Qed.

Ltac case_ltb :=
  match goal with
  | |- context [Py.ltb ?x ?y] =>
      let E := fresh "E" in
      destruct (ltb_cases x y) as [[E ?]|[E ?]]; rewrite E
  end.

Lemma tier_rank_le p q :
  p <= q ->
  (tier_rank (_calculate_risk_tier p) <= tier_rank (_calculate_risk_tier q))%nat.
Proof.
  intro H. unfold _calculate_risk_tier.
  repeat case_ltb; cbn [tier_rank]; try lia; exfalso; lra.
Qed.

(** X1: the tier never decreases when the probability increases. *)
Theorem tier_monotone p q :
  p <= q ->
  (tier_rank (_calculate_risk_tier p) <= tier_rank (_calculate_risk_tier q))%nat.
Proof.
  intro H. unfold _calculate_risk_tier.
  repeat case_ltb; cbn [tier_rank]; try lia; exfalso; lra.
Qed.

Lemma tier_monotone_witness :
  0.03 <= 0.15
  /\ (tier_rank (_calculate_risk_tier 0.03)
      <= tier_rank (_calculate_risk_tier 0.15))%nat.
Proof.
  assert (H : 0.03 <= 0.15) by (vm_compute; discriminate).
  split; [exact H|]. apply (tier_monotone 0.03 0.15 H).
Defined.

Lemma tier_band_cases p :
  (_calculate_risk_tier p = TIER_1 <-> p < 0.02)
  /\ (_calculate_risk_tier p = TIER_2 <-> 0.02 <= p /\ p < 0.05)
  /\ (_calculate_risk_tier p = TIER_3 <-> 0.05 <= p /\ p < 0.10)
  /\ (_calculate_risk_tier p = TIER_4 <-> 0.10 <= p /\ p < 0.20)
  /\ (_calculate_risk_tier p = TIER_5 <-> 0.20 <= p).
Proof.
  unfold _calculate_risk_tier.
  repeat case_ltb;
    repeat split; intros; try discriminate; try reflexivity; try lra;
    exfalso; lra.
Qed.

(** X2: the five tiers are the half-open probability bands
    (-inf, 0.02), [0.02, 0.05), [0.05, 0.10), [0.10, 0.20), [0.20, +inf):
    each lower bound belongs to the higher tier. *)
Theorem tier_bands p :
  (_calculate_risk_tier p = TIER_1 <-> p < 0.02)
  /\ (_calculate_risk_tier p = TIER_2 <-> 0.02 <= p /\ p < 0.05)
  /\ (_calculate_risk_tier p = TIER_3 <-> 0.05 <= p /\ p < 0.10)
  /\ (_calculate_risk_tier p = TIER_4 <-> 0.10 <= p /\ p < 0.20)
  /\ (_calculate_risk_tier p = TIER_5 <-> 0.20 <= p).
Proof.
  unfold _calculate_risk_tier.
  repeat case_ltb;
    repeat split; intros; try discriminate; try reflexivity; try lra;
    exfalso; lra.
Qed.

(** ** Bounds and monotonicity of the scorer *)

Lemma min_le_cap c x : Py.min c x <= c.
Proof. unfold Py.min. case_ltb; lra. Qed.

Lemma min_le_arg c x : Py.min c x <= x.
Proof. unfold Py.min. case_ltb; lra. Qed.

Lemma min_ge c x lo : lo <= c -> lo <= x -> lo <= Py.min c x.
Proof. intros. unfold Py.min. case_ltb; lra. Qed.

Lemma min_monotone c x y : x <= y -> Py.min c x <= Py.min c y.
Proof. intro. unfold Py.min. repeat case_ltb; lra. Qed.

Lemma max_nonneg x : 0 <= Py.max 0 x.
Proof. unfold Py.max. case_ltb; lra. Qed.

Lemma max_monotone x y : x <= y -> Py.max 0 x <= Py.max 0 y.
Proof. intro. unfold Py.max. repeat case_ltb; lra. Qed.

Lemma int_monotone x y : x <= y -> (Py.int x <= Py.int y)%Z.
Proof.
  intro H. unfold Py.int.
  destruct (Qle_bool 0 x) eqn:Ex, (Qle_bool 0 y) eqn:Ey.
  - now apply Qfloor_resp_le.
  - apply Qle_bool_iff in Ex.
    assert (0 <= y) by lra. apply Qle_bool_iff in H0. congruence.
  - apply Qle_bool_iff in Ey.
    assert (Hx : x <= 0).
    { apply Qlt_le_weak, Qnot_le_lt. intro L. apply Qle_bool_iff in L.
      congruence. }
    apply Qceiling_resp_le in Hx. apply Qfloor_resp_le in Ey.
    change (Qceiling 0) with 0%Z in Hx. change (Qfloor 0) with 0%Z in Ey. lia.
  - now apply Qceiling_resp_le.
Qed.

Lemma int_nonneg x : 0 <= x -> (0 <= Py.int x)%Z.
Proof. intro H. apply (int_monotone 0 x H). Qed.

Lemma floor_lt_iff x (k : Z) : (Qfloor x < k)%Z <-> x < inject_Z k.
Proof.
  split; intro H.
  - eapply Qlt_le_trans; [apply Qlt_floor|].
    rewrite <- Zle_Qle. lia.
  - rewrite Zlt_Qlt. eapply Qle_lt_trans; [apply Qfloor_le|exact H].
Qed.

Lemma int_lt_iff x (k : Z) : (0 < k)%Z -> ((Py.int x < k)%Z <-> x < inject_Z k).
Proof.
  intro Hk. unfold Py.int. destruct (Qle_bool 0 x) eqn:E.
  - apply floor_lt_iff.
  - assert (Hx : x < 0).
    { apply Qnot_le_lt. intro L. apply Qle_bool_iff in L. congruence. }
    assert (Hc : (Qceiling x <= 0)%Z).
    { change 0%Z with (Qceiling 0). apply Qceiling_resp_le. lra. }
    assert (Hk' : 0 < inject_Z k).
    { change 0 with (inject_Z 0). rewrite <- Zlt_Qlt. exact Hk. }
    split; intro; [lra|lia].
Qed.

Lemma raw_score_capped f : raw_score f <= 100.
Proof. apply min_le_cap. Qed.

Lemma predict_capped f :
  fst (_predict_default_risk f) <= 0.25
  /\ (snd (_predict_default_risk f) <= 100)%Z
  /\ fst (_predict_default_risk f) == raw_score f / 400.
Proof.
  rewrite predict_default_risk_eq. cbn [fst snd].
  pose proof (raw_score_capped f) as H.
  split; [|split].
  - assert (E : raw_score f / 100 * 0.25 == raw_score f * (1 # 400)) by field.
    rewrite E. lra.
  - apply (int_monotone _ 100) in H. exact H.
  - field.
Qed.

(** X3: whatever the features, the scorer's probability never exceeds the
    cap 0.25 and its integer score never exceeds 100; the probability is
    the capped raw score divided by 400. *)
Theorem scorer_capped f :
  fst (_predict_default_risk f) <= 0.25
  /\ (snd (_predict_default_risk f) <= 100)%Z
  /\ fst (_predict_default_risk f) == raw_score f / 400.
Proof.
  rewrite predict_default_risk_eq. cbn [fst snd].
  pose proof (raw_score_capped f) as H.
  split; [|split].
  - assert (E : raw_score f / 100 * 0.25 == raw_score f * (1 # 400)) by field.
    rewrite E. lra.
  - apply (int_monotone _ 100) in H. exact H.
  - field.
Qed.

(** X4: for features in their natural range (non-negative payment counts
    and leverage, on-time rate at most 1) the probability lies in
    [0, 0.25] and the integer score in [0, 100]. *)
Theorem scorer_in_range f :
  0 <= late_payment_count f -> 0 <= missed_payment_count f ->
  on_time_payment_rate f <= 1 -> 0 <= leverage_ratio f ->
  0 <= fst (_predict_default_risk f) <= 0.25
  /\ (0 <= snd (_predict_default_risk f) <= 100)%Z.
Proof.
  intros Hl Hm Ho Hv.
  destruct (predict_capped f) as (Hp & Hs & _).
  rewrite predict_default_risk_eq in *. cbn [fst snd] in *.
  assert (H0 : 0 <= raw_score f).
  { unfold raw_score. apply min_ge; [lra|].
    pose proof (max_nonneg (0.5 - recent_sentiment_score f)). nra. }
  split; [split; [|exact Hp]|split; [|exact Hs]].
  - assert (E : raw_score f / 100 * 0.25 == raw_score f * (1 # 400)) by field.
    rewrite E. lra.
  - now apply int_nonneg.
Qed.

Lemma scorer_in_range_witness :
  0 <= fst (_predict_default_risk scenario_features) <= 0.25
  /\ (0 <= snd (_predict_default_risk scenario_features) <= 100)%Z.
Proof.
  apply (scorer_in_range scenario_features); vm_compute; discriminate.
Defined.

(** X5: the stored integer score bounds the tier from below: with a score
    of at least 8 the tier is at least TIER_2, from 20 at least TIER_3, from
    40 at least TIER_4, and from 80 it is TIER_5. *)
Theorem tier_at_least_score_band f :
  let p := fst (_predict_default_risk f) in
  let s := snd (_predict_default_risk f) in
  ((8 <= s)%Z -> (2 <= tier_rank (_calculate_risk_tier p))%nat)
  /\ ((20 <= s)%Z -> (3 <= tier_rank (_calculate_risk_tier p))%nat)
  /\ ((40 <= s)%Z -> (4 <= tier_rank (_calculate_risk_tier p))%nat)
  /\ ((80 <= s)%Z -> _calculate_risk_tier p = TIER_5).
Proof.
  cbv zeta. rewrite predict_default_risk_eq. cbn [fst snd].
  set (raw := raw_score f).
  assert (E : raw / 100 * 0.25 == raw * (1 # 400)) by field.
  pose proof (int_lt_iff raw 8 eq_refl) as H8.
  pose proof (int_lt_iff raw 20 eq_refl) as H20.
  pose proof (int_lt_iff raw 40 eq_refl) as H40.
  pose proof (int_lt_iff raw 80 eq_refl) as H80.
  change (inject_Z 8) with 8 in H8. change (inject_Z 20) with 20 in H20.
  change (inject_Z 40) with 40 in H40. change (inject_Z 80) with 80 in H80.
  assert (B : forall k : Z, ~ (Py.int raw < k)%Z <-> (k <= Py.int raw)%Z)
    by (intro; lia).
  unfold _calculate_risk_tier.
  repeat split; intro H; apply B in H;
    [rewrite H8 in H | rewrite H20 in H | rewrite H40 in H | rewrite H80 in H];
    repeat case_ltb; cbn [tier_rank]; try lia; try reflexivity;
    exfalso; lra.
Qed.

Lemma tier_at_least_score_band_witness :
  (3 <= tier_rank (_calculate_risk_tier
                     (fst (_predict_default_risk scenario_features))))%nat.
Proof.
  destruct (tier_at_least_score_band scenario_features) as (_ & H & _).
  apply H. vm_compute. discriminate.
Defined.

Lemma raw_score_monotone f g : no_better f g -> raw_score f <= raw_score g.
Proof.
  intros (Hl & Hm & Ho & Hv & Hs). unfold raw_score.
  apply min_monotone.
  assert (Hx : Py.max 0 (0.5 - recent_sentiment_score f)
               <= Py.max 0 (0.5 - recent_sentiment_score g))
    by (apply max_monotone; lra).
  lra.
Qed.

(** X6: the scorer is monotone.  If an investor is no better than another
    on every input the scorer reads (not fewer late or missed payments, not
    a higher on-time rate, not less leverage, not a better sentiment), then
    their probability, integer score and tier are not lower. *)
Theorem scorer_monotone f g :
  no_better f g ->
  fst (_predict_default_risk f) <= fst (_predict_default_risk g)
  /\ (snd (_predict_default_risk f) <= snd (_predict_default_risk g))%Z
  /\ (tier_rank (_calculate_risk_tier (fst (_predict_default_risk f)))
      <= tier_rank (_calculate_risk_tier (fst (_predict_default_risk g))))%nat.
Proof.
  intro H. apply raw_score_monotone in H.
  rewrite !predict_default_risk_eq. cbn [fst snd].
  assert (Hp : raw_score f / 100 * 0.25 <= raw_score g / 100 * 0.25).
  { assert (E : forall x, x / 100 * 0.25 == x * (1 # 400))
      by (intro; field).
    rewrite !E. lra. }
  split; [exact Hp|]. split; [now apply int_monotone|].
  now apply tier_rank_le.
Qed.

Lemma scorer_monotone_witness :
  no_better scenario_features worse_features
  /\ (snd (_predict_default_risk scenario_features)
      <= snd (_predict_default_risk worse_features))%Z.
Proof.
  assert (H : no_better scenario_features worse_features).
  { unfold no_better. cbn. repeat split; vm_compute; discriminate. }
  split; [exact H|].
  apply (scorer_monotone scenario_features worse_features H).
Defined.

(** ** Risk factors and recommendations *)

(** X7: the factor list is never empty and has at most four entries, so
    the final truncation to five never drops one; a factor is listed
    exactly when its rule fires, and the two fallback factors appear exactly
    when no rule fires. *)
Theorem risk_factors_shape f :
  let fs := _identify_risk_factors f in
  fs <> []
  /\ (List.length fs <= 4)%nat
  /\ (has_factor "recent_payment_delays" fs = true
      <-> 2 < late_payment_count f)
  /\ (has_factor "account_balance_decline" fs = true
      <-> account_growth_rate f < 0)
  /\ (has_factor "communication_sentiment_negative" fs = true
      <-> recent_sentiment_score f < 0.3)
  /\ (has_factor "high_leverage_ratio" fs = true
      <-> 0.5 < leverage_ratio f)
  /\ (has_factor "market_conditions" fs = true
      <-> late_payment_count f <= 2 /\ 0 <= account_growth_rate f
          /\ 0.3 <= recent_sentiment_score f /\ leverage_ratio f <= 0.5).
Proof.
  cbv zeta. unfold _identify_risk_factors.
  repeat case_ltb; cbn;
    (split; [discriminate|]); (split; [lia|]);
    repeat split; intros; try discriminate; try reflexivity; try lra;
    try (exfalso; lra); try tauto.
Qed.

Lemma recommendations_nonempty tier factors :
  _generate_risk_recommendations tier factors <> [].
Proof.
  unfold _generate_risk_recommendations.
  destruct tier, (has_factor "recent_payment_delays" factors),
    (has_factor "communication_sentiment_negative" factors); discriminate.
Qed.

(** X8: what an investor is told, in terms of the features alone.  The
    recommendations are the three monitoring actions for TIER_4 and TIER_5,
    then "Investigate payment processing issues" for more than two late
    payments, then "Proactive outreach to address concerns" for a sentiment
    score below 0.3, and "Continue standard monitoring" when none of these
    applies; nothing else is ever recommended, so a shrinking account or a
    leverage ratio above 0.5 never adds or changes a recommendation. *)
Theorem recommendations_by_feature tier f :
  let recs := _generate_risk_recommendations tier (_identify_risk_factors f) in
  recs
  = match
      (match tier with
       | TIER_4 | TIER_5 =>
           [ "Increase monitoring frequency to weekly";
             "Schedule relationship manager call";
             "Review account covenants" ]
       | _ => []
       end)
      ++ (if Py.ltb 2 (late_payment_count f)
          then [ "Investigate payment processing issues" ] else [])
      ++ (if Py.ltb (recent_sentiment_score f) 0.3
          then [ "Proactive outreach to address concerns" ] else [])
    with
    | [] => [ "Continue standard monitoring" ]
    | l => l
    end
  /\ recs <> []
  /\ (In "Investigate payment processing issues" recs
      <-> 2 < late_payment_count f)
  /\ (In "Proactive outreach to address concerns" recs
      <-> recent_sentiment_score f < 0.3)
  /\ (In "Increase monitoring frequency to weekly" recs
      <-> tier = TIER_4 \/ tier = TIER_5)
  /\ (In "Schedule relationship manager call" recs
      <-> tier = TIER_4 \/ tier = TIER_5)
  /\ (In "Review account covenants" recs
      <-> tier = TIER_4 \/ tier = TIER_5)
  /\ (In "Continue standard monitoring" recs
      <-> tier <> TIER_4 /\ tier <> TIER_5
          /\ late_payment_count f <= 2 /\ 0.3 <= recent_sentiment_score f).
Proof.
  cbv zeta. unfold _identify_risk_factors.
  destruct tier; repeat case_ltb; cbn;
    (split; [reflexivity|]); (split; [discriminate|]);
    repeat split; intros;
    repeat match goal with
           | H : _ \/ _ |- _ => destruct H
           | H : _ /\ _ |- _ => destruct H
           | H : False |- _ => destruct H
           end;
    try discriminate; try congruence; try lra; try (exfalso; lra);
    try (left; reflexivity); try (right; reflexivity);
    try (right; left; reflexivity);
    try (right; right; left; reflexivity);
    try (right; right; right; left; reflexivity);
    try (right; right; right; right; left; reflexivity).
Qed.

(** X9: the fund recommendations are never empty, and a metric that is NaN
    never triggers its recommendation: comparisons with NaN are false, so
    metrics that are all NaN receive the advice to maintain the current
    approach. *)
Theorem fund_recommendations_on_nan m :
  _generate_fund_risk_recommendations m <> []
  /\ (rm_sharpe_ratio m = NaN -> rm_max_drawdown m = NaN ->
      rm_probability_positive_return m = NaN ->
      _generate_fund_risk_recommendations m
      = ["Maintain current risk management approach"]).
Proof.
  unfold _generate_fund_risk_recommendations. split.
  - destruct (fltb (rm_sharpe_ratio m) (Fin 0.5)),
      (fltb (rm_max_drawdown m) (Fin (-0.20))),
      (fltb (rm_probability_positive_return m) (Fin 0.75)); discriminate.
  - intros -> -> ->. reflexivity.
Qed.

Lemma fund_recommendations_on_nan_witness :
  _generate_fund_risk_recommendations nan_metrics
  = ["Maintain current risk management approach"].
Proof.
  apply (fund_recommendations_on_nan nan_metrics); reflexivity.
Defined.

(** ** Loss exposure *)

Lemma loss_exposure_cases d investor p :
  match latest_feature_record d "INVESTOR" investor with
  | None =>
      exists x, _calculate_loss_exposure d investor p = inr x
                /\ amount x == 1000000 * p
                /\ percentage x == amount x / 150000
  | Some r =>
      match fs_current_balance r with
      | Some b =>
          exists x, _calculate_loss_exposure d investor p = inr x
                    /\ amount x == b * p
                    /\ percentage x == amount x / 150000
      | None => exists msg, _calculate_loss_exposure d investor p
                            = inl (TypeError msg)
      end
  end.
Proof.
  unfold _calculate_loss_exposure.
  destruct (latest_feature_record d "INVESTOR" investor) as [r|].
  - destruct (fs_current_balance r) as [b|].
    + eexists. split; [reflexivity|]. cbn [amount percentage].
      split; [reflexivity|field].
    + eexists. reflexivity.
  - eexists. split; [reflexivity|]. cbn [amount percentage].
    split; [reflexivity|field].
Qed.

(** X10: the loss exposure is the stored balance times the probability,
    and its percentage is that amount over the fixed 15,000,000 portfolio;
    an investor without a feature row is given a balance of 1,000,000.  The
    stored balance is used as it is: a stored balance of zero gives an
    exposure of zero although feature extraction reports a balance of
    1,000,000 for the same row. *)
Theorem loss_exposure_uses_stored_balance d investor p :
  match latest_feature_record d "INVESTOR" investor with
  | None =>
      exists x, _calculate_loss_exposure d investor p = inr x
                /\ amount x == 1000000 * p
                /\ percentage x == amount x / 150000
  | Some r =>
      match fs_current_balance r with
      | Some b =>
          exists x, _calculate_loss_exposure d investor p = inr x
                    /\ amount x == b * p
                    /\ percentage x == amount x / 150000
                    /\ (b == 0 ->
                        amount x == 0
                        /\ current_balance (_extract_risk_features d investor)
                           = 1000000)
      | None => exists msg, _calculate_loss_exposure d investor p
                            = inl (TypeError msg)
      end
  end.
Proof.
  pose proof (loss_exposure_cases d investor p) as H.
  unfold _extract_risk_features.
  destruct (latest_feature_record d "INVESTOR" investor) as [r|];
    [|exact H].
  destruct (fs_current_balance r) as [b|] eqn:Eb; [|exact H].
  destruct H as (x & H1 & H2 & H3). exists x.
  split; [exact H1|]. split; [exact H2|]. split; [exact H3|].
  intro Hb. split; [rewrite H2, Hb; ring|].
  cbn [current_balance Py.or_].
  apply Qeq_bool_iff in Hb. now rewrite Hb.
Qed.

(** X11: when the investor's newest feature row has a NULL balance the
    default-risk assessment fails with a [TypeError] and records nothing,
    even though a production model is registered and feature extraction
    itself replaces the NULL by its default. *)
Theorem null_balance_fails_without_write env investor horizon include_trend
    w model r :
  find_production_model (db w) default_risk_model_id = Some model ->
  latest_feature_record (db w) "INVESTOR" investor = Some r ->
  fs_current_balance r = None ->
  (exists msg,
     assess_investor_default_risk env investor horizon include_trend w
     = (inl (TypeError msg), w))
  /\ current_balance (_extract_risk_features (db w) investor) = 1000000.
Proof.
  intros Hmodel Hr Hb. split.
  - unfold assess_investor_default_risk, bind, query.
    rewrite Hmodel, predict_default_risk_eq.
    set (raw := raw_score (_extract_risk_features (db w) investor)).
    assert (Hx : exists msg,
              _calculate_loss_exposure (db w) investor (raw / 100 * 0.25)
              = inl (TypeError msg)).
    { unfold _calculate_loss_exposure. rewrite Hr, Hb. eexists. reflexivity. }
    destruct Hx as [msg Hx]. exists msg.
    destruct include_trend; unfold ret, lift, raise; simpl.
    1: destruct (_calculate_risk_trend (db w) investor (Py.int raw)) as [pv tr].
    all: rewrite Hx; reflexivity.
  - unfold _extract_risk_features. rewrite Hr. cbn [current_balance].
    rewrite Hb. reflexivity.
Qed.

Lemma null_balance_fails_without_write_witness :
  exists msg,
    assess_investor_default_risk toy_env "INV-2" "12M" true null_balance_world
    = (inl (TypeError msg), null_balance_world).
Proof.
  apply (null_balance_fails_without_write toy_env "INV-2" "12M" true
           null_balance_world production_default_model null_balance_row);
    reflexivity.
Defined.

(** ** Trend *)

(** X12: the trend returned is always the one its previous score
    implies: DETERIORATING exactly when the current score exceeds the
    returned previous score by more than 5, IMPROVING exactly when it falls
    short of it by more than 5, STABLE exactly when the two differ by at
    most 5.  This holds with and without history. *)
Theorem trend_matches_previous_score d investor current_score :
  let previous := fst (_calculate_risk_trend d investor current_score) in
  let trend := snd (_calculate_risk_trend d investor current_score) in
  (trend = DETERIORATING <-> (current_score - previous > 5)%Z)
  /\ (trend = IMPROVING <-> (current_score - previous < -5)%Z)
  /\ (trend = STABLE <-> (Z.abs (current_score - previous) <= 5)%Z).
Proof.
  cbv zeta. unfold _calculate_risk_trend.
  destruct (previous_prediction_query d investor) as [p|]; cbn [fst snd].
  - destruct (Z.ltb_spec 5 (current_score - risk_score p));
      [|destruct (Z.ltb_spec (current_score - risk_score p) (-5))];
      repeat split; intros; try discriminate; try reflexivity; lia.
  - repeat split; intros; try discriminate; try reflexivity; lia.
Qed.

(** ** Queries *)

Section OrderByDesc.

Context {A : Type} (key : A -> Z).

Lemma insert_desc_In x y rows :
  In y (insert_desc key x rows) <-> y = x \/ In y rows.
Proof.
  induction rows as [|z rows IH]; simpl.
  - intuition.
  - destruct (key z <=? key x)%Z; simpl; [intuition|].
    rewrite IH. intuition.
Qed.

Lemma order_by_desc_In y rows : In y (order_by_desc key rows) <-> In y rows.
Proof.
  induction rows as [|x rows IH]; simpl; [reflexivity|].
  rewrite insert_desc_In, IH. intuition.
Qed.

Lemma insert_desc_length x rows :
  List.length (insert_desc key x rows) = S (List.length rows).
Proof.
  induction rows as [|z rows IH]; simpl; [reflexivity|].
  destruct (key z <=? key x)%Z; simpl; [reflexivity|]. now rewrite IH.
Qed.

Lemma order_by_desc_length rows :
  List.length (order_by_desc key rows) = List.length rows.
Proof.
  induction rows as [|x rows IH]; simpl; [reflexivity|].
  now rewrite insert_desc_length, IH.
Qed.

Lemma insert_desc_sorted x rows :
  StronglySorted (fun a b => (key b <= key a)%Z) rows ->
  StronglySorted (fun a b => (key b <= key a)%Z) (insert_desc key x rows).
Proof.
  induction 1 as [|z rows Hs IH Hall]; simpl.
  - constructor; constructor.
  - destruct (Z.leb_spec (key z) (key x)).
    + constructor; [constructor; assumption|].
      constructor; [assumption|].
      eapply Forall_impl; [|exact Hall]. cbn. intros. lia.
    + constructor; [exact IH|].
      apply Forall_forall. intros y Hy. apply insert_desc_In in Hy.
      destruct Hy as [->|Hy]; [lia|].
      rewrite Forall_forall in Hall. now apply Hall.
Qed.

Lemma order_by_desc_sorted rows :
  StronglySorted (fun a b => (key b <= key a)%Z) (order_by_desc key rows).
Proof.
  induction rows as [|x rows IH]; [constructor|].
  simpl. now apply insert_desc_sorted.
Qed.

Lemma first_is_newest rows r :
  first (order_by_desc key rows) = Some r ->
  In r rows /\ forall r', In r' rows -> (key r' <= key r)%Z.
Proof.
  intro H. pose proof (order_by_desc_sorted rows) as Hs.
  unfold first in H.
  destruct (order_by_desc key rows) as [|x l] eqn:E; [discriminate|].
  cbn in H. inversion H; subst x. split.
  - apply order_by_desc_In. rewrite E. now left.
  - intros r' Hr'. apply order_by_desc_In in Hr'. rewrite E in Hr'.
    destruct Hr' as [->|Hr']; [lia|].
    inversion Hs as [|? ? _ Hall]; subst.
    rewrite Forall_forall in Hall. now apply Hall.
Qed.

Lemma first_none rows : first (order_by_desc key rows) = None -> rows = [].
Proof.
  intro H. pose proof (order_by_desc_length rows) as L.
  destruct (order_by_desc key rows); [|discriminate].
  destruct rows; [reflexivity|discriminate].
Qed.

Lemma insert_desc_perm x rows :
  Permutation (insert_desc key x rows) (x :: rows).
Proof.
  induction rows as [|z rows IH]; simpl; [reflexivity|].
  destruct (key z <=? key x)%Z; [reflexivity|].
  rewrite IH. apply perm_swap.
Qed.

Lemma order_by_desc_perm rows : Permutation (order_by_desc key rows) rows.
Proof.
  induction rows as [|x rows IH]; simpl; [reflexivity|].
  rewrite insert_desc_perm. now constructor.
Qed.

End OrderByDesc.

Lemma latest_feature_record_none d etype eid :
  (forall r, In r (feature_store d) ->
             ~ (entity_type r = etype /\ entity_id r = eid)) ->
  latest_feature_record d etype eid = None.
Proof.
  intro H. unfold latest_feature_record.
  assert (E : filter (fun r => String.eqb (entity_type r) etype
                               && String.eqb (entity_id r) eid)
                     (feature_store d) = []).
  { induction (feature_store d) as [|r l IH]; [reflexivity|]. simpl.
    destruct (String.eqb_spec (entity_type r) etype) as [E1|N1];
      [destruct (String.eqb_spec (entity_id r) eid) as [E2|N2]|]; simpl.
    - exfalso. apply (H r (or_introl eq_refl)). split; assumption.
    - apply IH. intros r' Hr'. apply H. now right.
    - apply IH. intros r' Hr'. apply H. now right. }
  rewrite E. reflexivity.
Qed.

(** X13: the feature row the service works from is a row of the requested
    entity, and no row of that entity carries a later timestamp; no row is
    found exactly when the entity has none. *)
Theorem latest_feature_record_is_newest d etype eid :
  match latest_feature_record d etype eid with
  | Some r =>
      In r (feature_store d) /\ entity_type r = etype /\ entity_id r = eid
      /\ forall r', In r' (feature_store d) ->
                    entity_type r' = etype -> entity_id r' = eid ->
                    (feature_timestamp r' <= feature_timestamp r)%Z
  | None =>
      forall r', In r' (feature_store d) ->
                 ~ (entity_type r' = etype /\ entity_id r' = eid)
  end.
Proof.
  unfold latest_feature_record.
  set (matching := filter _ (feature_store d)).
  destruct (first (order_by_desc feature_timestamp matching)) as [r|] eqn:E.
  - apply first_is_newest in E. destruct E as [Hin Hmax].
    unfold matching in Hin. apply filter_In in Hin.
    destruct Hin as [Hin Hm]. apply andb_true_iff in Hm.
    destruct Hm as [H1 H2]. apply String.eqb_eq in H1, H2.
    repeat split; try assumption.
    intros r' Hr' E1 E2. apply Hmax. unfold matching. apply filter_In.
    split; [exact Hr'|]. apply andb_true_iff.
    split; apply String.eqb_eq; assumption.
  - apply first_none in E. intros r' Hr' [E1 E2].
    assert (Hin : In r' matching).
    { unfold matching. apply filter_In. split; [exact Hr'|].
      apply andb_true_iff. split; apply String.eqb_eq; assumption. }
    rewrite E in Hin. destruct Hin.
Qed.

(** X14: the trend lookup needs two earlier assessments, and uses the
    second newest.  With fewer than two recorded DEFAULT_RISK rows for the
    investor the trend is [(current_score, STABLE)].  With two or more, the
    investor's rows consist of a newest row, the row the trend is computed
    against, which is not newer than that one, and rows that are not newer
    than the row used. *)
Theorem trend_needs_two_rows d investor current_score :
  let history :=
    filter (fun p => opt_string_eqb (investor_id p) investor
                     && risk_type_eqb (rp_risk_type p) DEFAULT_RISK)
           (ai_predictions_risk d) in
  ((List.length history < 2)%nat ->
   _calculate_risk_trend d investor current_score = (current_score, STABLE))
  /\ ((2 <= List.length history)%nat ->
      exists newest p rest,
        Permutation history (newest :: p :: rest)
        /\ (prediction_timestamp p <= prediction_timestamp newest)%Z
        /\ Forall (fun r => (prediction_timestamp r
                             <= prediction_timestamp p)%Z) rest
        /\ previous_prediction_query d investor = Some p
        /\ fst (_calculate_risk_trend d investor current_score)
           = risk_score p).
Proof.
  cbv zeta. unfold _calculate_risk_trend, previous_prediction_query.
  set (history := filter _ (ai_predictions_risk d)).
  pose proof (order_by_desc_length prediction_timestamp history) as L.
  pose proof (order_by_desc_sorted prediction_timestamp history) as S.
  pose proof (order_by_desc_perm prediction_timestamp history) as P.
  destruct (order_by_desc prediction_timestamp history) as [|x [|y l]] eqn:E;
    cbn [List.length] in L; split; intro H; try lia; try reflexivity.
  exists x, y, l. cbn [offset skipn first hd_error fst].
  inversion S as [|? ? S' Hx]; subst.
  inversion S' as [|? ? _ Hy]; subst.
  split; [symmetry; exact P|].
  split; [inversion Hx; assumption|].
  split; [exact Hy|]. split; reflexivity.
Qed.

Lemma trend_needs_two_rows_witness :
  exists newest p rest,
    Permutation
      [prior_assessment 1690000000 0; prior_assessment 1695000000 10]
      (newest :: p :: rest)
    /\ (prediction_timestamp p <= prediction_timestamp newest)%Z
    /\ Forall (fun r => (prediction_timestamp r
                         <= prediction_timestamp p)%Z) rest
    /\ previous_prediction_query (db zero_then_ten) "INV-1" = Some p
    /\ fst (_calculate_risk_trend (db zero_then_ten) "INV-1" 25)
       = risk_score p.
Proof.
  destruct (trend_needs_two_rows (db zero_then_ten) "INV-1" 25) as [_ H].
  apply H. cbn. lia.
Defined.

(** ** Investors without features *)

(** X15: an investor with no INVESTOR row in the feature store is always
    assessed from the default table: score 14, probability 0.035, TIER_2,
    an exposure of 35,000 on the assumed balance of 1,000,000, the two
    fallback risk factors and the single recommendation to continue
    standard monitoring. *)
Theorem unknown_investor_assessment env investor horizon include_trend w model :
  find_production_model (db w) default_risk_model_id = Some model ->
  (forall r, In r (feature_store (db w)) ->
             ~ (entity_type r = "INVESTOR" /\ entity_id r = investor)) ->
  exists response w',
    assess_investor_default_risk env investor horizon include_trend w
    = (inr response, w')
    /\ dr_risk_score response = 14%Z
    /\ dr_default_probability response == 0.035
    /\ dr_risk_tier response = TIER_2
    /\ amount (dr_estimated_loss_exposure response) == 35000
    /\ map factor (dr_top_risk_factors response)
       = ["portfolio_volatility"; "market_conditions"]
    /\ dr_recommended_actions response = ["Continue standard monitoring"].
Proof.
  intros Hmodel Hnone.
  assert (Hrec : latest_feature_record (db w) "INVESTOR" investor = None).
  { pose proof (latest_feature_record_none (db w) "INVESTOR" investor) as H.
    apply H. exact Hnone. }
  assert (Hf : _extract_risk_features (db w) investor
               = _generate_default_risk_features).
  { unfold _extract_risk_features. now rewrite Hrec. }
  assert (Hx : forall p,
            _calculate_loss_exposure (db w) investor p
            = inr {| amount := 1000000 * p;
                     percentage := 1000000 * p / 15000000 * 100 |}).
  { intro p. unfold _calculate_loss_exposure. now rewrite Hrec. }
  unfold assess_investor_default_risk, bind, query.
  rewrite Hmodel, Hf, predict_default_risk_eq.
  destruct include_trend; unfold ret, lift, raise; simpl.
  1: destruct (_calculate_risk_trend (db w) investor _) as [pv tr].
  all: rewrite Hx; simpl.
  all: eexists; eexists; split; [reflexivity|].
  all: cbn [dr_risk_score dr_default_probability dr_risk_tier
            dr_estimated_loss_exposure dr_top_risk_factors
            dr_recommended_actions amount].
  all: repeat split; vm_compute; reflexivity.
Qed.

Lemma unknown_investor_assessment_witness :
  exists response w',
    assess_investor_default_risk toy_env "INV-9" "12M" true scenario_world
    = (inr response, w')
    /\ dr_risk_score response = 14%Z
    /\ dr_default_probability response == 0.035
    /\ dr_risk_tier response = TIER_2
    /\ amount (dr_estimated_loss_exposure response) == 35000
    /\ map factor (dr_top_risk_factors response)
       = ["portfolio_volatility"; "market_conditions"]
    /\ dr_recommended_actions response = ["Continue standard monitoring"].
Proof.
  apply (unknown_investor_assessment toy_env "INV-9" "12M" true scenario_world
           production_default_model).
  - reflexivity.
  - cbn. intros r [<-|[]] [_ H]. discriminate H.
Defined.

(** ** Failures of the fund path *)

(** X16: without a production fund-risk model the fund assessment raises
    (a [ValueError] naming the model) before anything else happens: nothing
    is recorded and the process-wide generator is not reseeded. *)
Theorem fund_no_model_no_effect env fund scenarios w :
  (forall m, In m (ai_models (db w)) ->
             model_id m = fund_risk_model_id -> status m <> "PRODUCTION") ->
  assess_fund_performance_risk env fund scenarios w
  = (inl (ValueError "Fund risk model FUND_RISK_MC_V1.5 not found"), w).
Proof.
  intro H. apply find_production_model_none in H.
  unfold assess_fund_performance_risk, bind, query.
  rewrite H. reflexivity.
Qed.

Lemma fund_no_model_no_effect_witness :
  assess_fund_performance_risk toy_env "FUND-1" None scenario_world
  = (inl (ValueError "Fund risk model FUND_RISK_MC_V1.5 not found"),
     scenario_world).
Proof.
  apply (fund_no_model_no_effect toy_env "FUND-1" None scenario_world).
  cbn. intros m [<-|[]] H. discriminate H.
Defined.

(** ** Range of the recorded fund score *)

Lemma Qsum_lower v (l : list Q) :
  Forall (fun x => v <= x) l -> Qlen l * v <= Qsum l.
Proof.
  induction 1 as [|x l Hx Hl IH].
  - unfold Qsum, Qlen. cbn [fold_right List.length Z.of_nat].
    change (inject_Z 0) with 0. lra.
  - rewrite Qlen_cons. unfold Qsum in *. cbn [fold_right]. lra.
Qed.

Lemma mean_lower v (l : list Q) m :
  mean l = Fin m -> Forall (fun x => v <= x) l -> v <= m.
Proof.
  intros Hm Hall. destruct l as [|x l]; [discriminate|].
  cbn in Hm. inversion Hm; subst m. clear Hm.
  apply Qle_shift_div_l.
  - rewrite Qlen_cons. pose proof (Qlen_nonneg l). lra.
  - rewrite Qmult_comm. now apply Qsum_lower.
Qed.

Lemma mean_upper v (l : list Q) m :
  mean l = Fin m -> Forall (fun x => x <= v) l -> m <= v.
Proof.
  intros Hm Hall. destruct l as [|x l]; [discriminate|].
  destruct (mean_bounded v (x :: l)) as (m' & Hm' & Hle);
    [discriminate|exact Hall|].
  rewrite Hm in Hm'. inversion Hm'; subst. exact Hle.
Qed.

Lemma positive_mask_unit a :
  exists l, finite_values (positive_mask a) = Some l
            /\ List.length l = List.length a
            /\ Forall (fun x => 0 <= x /\ x <= 1) l.
Proof.
  unfold positive_mask. induction a as [|r a (l & Hl & Hlen & Hall)].
  - exists []. repeat split. constructor.
  - cbn [map]. destruct (fltb (Fin 0) r); cbn [finite_values]; rewrite Hl;
      eexists; (split; [reflexivity|]);
      (split; [cbn [List.length]; now rewrite Hlen|]);
      (constructor; [split; lra|exact Hall]).
Qed.

Lemma prob_positive_unit a :
  a <> [] ->
  exists pp, np_mean (positive_mask a) = Fin pp /\ 0 <= pp /\ pp <= 1.
Proof.
  intro Ha. destruct (positive_mask_unit a) as (l & Hl & Hlen & Hall).
  unfold np_mean. rewrite Hl.
  destruct (mean_of_nonempty l) as [pp Hpp].
  { intro E. subst l. destruct a; [congruence|discriminate]. }
  exists pp. split; [exact Hpp|]. split.
  - apply (mean_lower 0 l pp Hpp).
    eapply Forall_impl; [|exact Hall]. cbn. tauto.
  - apply (mean_upper 1 l pp Hpp).
    eapply Forall_impl; [|exact Hall]. cbn. tauto.
Qed.

Lemma monte_carlo_summary_prob n a mc :
  monte_carlo_summary n a = inr mc ->
  mc_prob_positive mc = np_mean (positive_mask a).
Proof.
  unfold monte_carlo_summary.
  destruct (np_min a); [discriminate|].
  destruct (np_percentile n a 5); [discriminate|].
  destruct (np_percentile n a 25); [discriminate|].
  destruct (np_percentile n a 50); [discriminate|].
  destruct (np_percentile n a 75); [discriminate|].
  destruct (np_percentile n a 95); [discriminate|].
  intro H. inversion H. reflexivity.
Qed.

(** X18: every row the fund path records carries a probability between 0
    and 1 (one minus the share of positive samples) and an integer score
    between 0 and 100. *)
Theorem fund_row_in_range env fund scenarios w :
  match assess_fund_performance_risk env fund scenarios w with
  | (inr _, w') =>
      exists p q,
        ai_predictions_risk (db w') = ai_predictions_risk (db w) ++ [p]
        /\ risk_probability p = Fin q
        /\ 0 <= q /\ q <= 1
        /\ (0 <= risk_score p <= 100)%Z
  | (inl _, _) => True
  end.
Proof.
  unfold assess_fund_performance_risk, bind, query.
  destruct (find_production_model (db w) fund_risk_model_id) as [model|];
    [|exact I].
  rewrite simulator_spec.
  change (Py.ltb (ff_volatility (_extract_fund_features fund)) 0) with false.
  cbv iota.
  destruct (monte_carlo_summary _ _) as [e|mc] eqn:Emc; [exact I|].
  apply monte_carlo_summary_prob in Emc.
  destruct (prob_positive_unit
              (seed_42_samples (np env) (_extract_fund_features fund)))
    as (pp & Hpp & H0 & H1); [apply samples_nonempty|].
  rewrite Hpp in Emc.
  unfold lift.
  destruct (_calculate_var (np env) (mc_returns mc) 0.95); [exact I|].
  destruct (_calculate_var (np env) (mc_returns mc) 0.99); [exact I|].
  destruct (_calculate_cvar (np env) (mc_returns mc) 0.95); [exact I|].
  destruct (_calculate_sharpe_ratio mc); [exact I|].
  destruct (_calculate_sortino_ratio (np env) mc); [exact I|].
  rewrite Emc. cbn [fsub fmul fint].
  unfold db_add_commit, ret. cbn [db rng ai_predictions_risk fst snd].
  eexists; eexists. split; [reflexivity|]. split; [reflexivity|].
  cbn [risk_score].
  split; [lra|]. split; [lra|]. split.
  - apply int_nonneg. lra.
  - apply Z.le_trans with (Py.int 100);
      [apply int_monotone; lra | vm_compute; discriminate].
Qed.

(** ** The worst sample bounds every metric *)

Lemma Qminimum_lower l : forall x,
  Qminimum x l <= x /\ Forall (fun y => Qminimum x l <= y) l.
Proof.
  induction l as [|y l IH]; intro x; cbn [Qminimum].
  - split; [lra|constructor].
  - destruct (IH (if Py.ltb y x then y else x)) as [Hm Hall].
    assert (Hx : (if Py.ltb y x then y else x) <= x) by (case_ltb; lra).
    assert (Hy : (if Py.ltb y x then y else x) <= y) by (case_ltb; lra).
    split; [lra|]. constructor; [lra|exact Hall].
Qed.

Lemma np_min_finite a l :
  a <> [] -> finite_values a = Some l ->
  exists lowest, np_min a = inr (Fin lowest)
                 /\ Forall (fun y => lowest <= y) l.
Proof.
  intros Ha Hl. pose proof (finite_nonempty a l Ha Hl) as Hne.
  unfold np_min. destruct a as [|r a]; [congruence|]. rewrite Hl.
  destruct l as [|x l]; [congruence|].
  eexists. split; [reflexivity|].
  destruct (Qminimum_lower l x) as [Hx Hall].
  constructor; assumption.
Qed.

Lemma monte_carlo_summary_min n a mc :
  monte_carlo_summary n a = inr mc -> np_min a = inr (mc_max_drawdown mc).
Proof.
  unfold monte_carlo_summary.
  destruct (np_min a); [discriminate|].
  destruct (np_percentile n a 5); [discriminate|].
  destruct (np_percentile n a 25); [discriminate|].
  destruct (np_percentile n a 50); [discriminate|].
  destruct (np_percentile n a 75); [discriminate|].
  destruct (np_percentile n a 95); [discriminate|].
  intro H. inversion H. reflexivity.
Qed.

Lemma Qminimum_In l : forall x, In (Qminimum x l) (x :: l).
Proof.
  induction l as [|y l IH]; intro x; cbn [Qminimum]; [now left|].
  destruct (IH (if Py.ltb y x then y else x)) as [H|H].
  - destruct (Py.ltb y x); rewrite <- H; [right; now left|now left].
  - right. now right.
Qed.

(** X19: the reported drawdown is the smallest sample, and no VaR lies
    below it: on a non-empty array of finite returns, max_drawdown is one of
    the returns, at most every return, at most VaR(c) for every confidence
    c from 0 to 1, and at most the reported 5th percentile. *)
Theorem drawdown_bounds_var n a l c :
  a <> [] -> finite_values a = Some l -> 0 <= c -> c <= 1 ->
  exists mc lowest var p5,
    monte_carlo_summary n a = inr mc
    /\ mc_max_drawdown mc = Fin lowest
    /\ In lowest l
    /\ Forall (fun r => lowest <= r) l
    /\ _calculate_var n a c = inr (Fin var)
    /\ lowest <= var
    /\ mc_p5 mc = Fin p5
    /\ lowest <= p5.
Proof.
  intros Ha Hl H0 H1.
  destruct (monte_carlo_summary_finite n a l Ha Hl) as [lo Hmc].
  pose proof (finite_nonempty a l Ha Hl) as Hne.
  assert (Hmin : exists lowest,
            np_min a = inr (Fin lowest) /\ In lowest l
            /\ Forall (fun r => lowest <= r) l).
  { unfold np_min. destruct a as [|r a]; [congruence|]. rewrite Hl.
    destruct l as [|x l]; [congruence|].
    eexists. split; [reflexivity|]. split; [apply Qminimum_In|].
    destruct (Qminimum_lower l x) as [Hx Hall]. constructor; assumption. }
  destruct Hmin as (lowest & Hmin & Hin & Hall).
  pose proof (monte_carlo_summary_min n a _ Hmc) as Hmin'.
  cbn [mc_max_drawdown] in Hmin'. rewrite Hmin in Hmin'.
  inversion Hmin' as [Elo]. clear Hmin'.
  assert (Hbelow : forall q, 0 <= q -> q <= 100 ->
                             lowest <= percentile_linear l q).
  { intros q Hq0 Hq1.
    destruct (percentile_linear_above_some l q Hne Hq0 Hq1) as (x & Hx & Hxq).
    rewrite Forall_forall in Hall. specialize (Hall x Hx). lra. }
  eexists. exists lowest, (percentile_linear l ((1 - c) * 100)),
    (percentile_linear l 5).
  split; [exact Hmc|]. cbn [mc_max_drawdown mc_p5].
  split; [now rewrite <- Elo|]. split; [exact Hin|]. split; [exact Hall|].
  split; [apply calculate_var_finite; assumption|].
  split; [apply Hbelow; lra|]. split; [reflexivity|].
  apply Hbelow; lra.
Qed.

Lemma drawdown_bounds_var_witness :
  exists mc lowest var p5,
    monte_carlo_summary toy_numpy five_returns = inr mc
    /\ mc_max_drawdown mc = Fin lowest
    /\ In lowest [0.08; 0.12; -0.03; 0.15; 0.09]
    /\ Forall (fun r => lowest <= r) [0.08; 0.12; -0.03; 0.15; 0.09]
    /\ _calculate_var toy_numpy five_returns 0.95 = inr (Fin var)
    /\ lowest <= var
    /\ mc_p5 mc = Fin p5
    /\ lowest <= p5.
Proof.
  apply (drawdown_bounds_var toy_numpy five_returns
           [0.08; 0.12; -0.03; 0.15; 0.09] 0.95).
  - discriminate.
  - reflexivity.
  - vm_compute. discriminate.
  - vm_compute. discriminate.
Defined.

(** ** Confidence levels *)

(** X20: [_calculate_var] rejects every confidence above 1: the percentile
    it asks for is then negative and NumPy raises a [ValueError], whatever
    the array.  For every confidence from 0 to 1 the percentile lies in
    [0, 100] and, on a non-empty array of finite returns, the result is a
    finite number. *)
Theorem var_confidence_range n a l c :
  a <> [] -> finite_values a = Some l ->
  (1 < c ->
   forall returns,
     _calculate_var n returns c
     = inl (ValueError "Percentiles must be in the range [0, 100]"))
  /\ (0 <= c -> c <= 1 -> exists v, _calculate_var n a c = inr (Fin v)).
Proof.
  intros Ha Hl. split.
  - intros H returns. unfold _calculate_var, np_percentile.
    assert (E : Py.ltb ((1 - c) * 100) 0 = true) by (apply ltb_lt; lra).
    now rewrite E.
  - intros H0 H1. eexists. now apply (calculate_var_finite n a l).
Qed.

Lemma var_confidence_range_witness :
  _calculate_var toy_numpy five_returns 1.5
  = inl (ValueError "Percentiles must be in the range [0, 100]").
Proof.
  destruct (var_confidence_range toy_numpy five_returns
              [0.08; 0.12; -0.03; 0.15; 0.09] 1.5) as [H _].
  - discriminate.
  - reflexivity.
  - apply H. reflexivity.
Defined.

(** ** Sortino and Sharpe *)

(** X21: when no simulated return lies below the risk-free rate of 0.02,
    the Sortino ratio falls back on the overall volatility and therefore
    equals the Sharpe ratio (including its [ZeroDivisionError]). *)
Theorem sortino_without_downside n mc :
  Forall (fun r => fltb r (Fin 0.02) = false) (mc_returns mc) ->
  _calculate_sortino_ratio n mc = _calculate_sharpe_ratio mc.
Proof.
  intro H. unfold _calculate_sortino_ratio, _calculate_sharpe_ratio.
  assert (E : filter (fun r => fltb r (Fin 0.02)) (mc_returns mc) = []).
  { induction H as [|r rs Hr _ IH]; [reflexivity|].
    cbn [filter]. now rewrite Hr. }
  now rewrite E.
Qed.

Lemma sortino_without_downside_witness :
  _calculate_sortino_ratio toy_numpy gains_only
  = _calculate_sharpe_ratio gains_only.
Proof.
  apply (sortino_without_downside toy_numpy gains_only).
  repeat constructor.
Defined.

(** ** The route *)

Lemma as_http_default env investor horizon include_trend w :
  match as_http DefaultRiskResult
          (assess_investor_default_risk env investor horizon include_trend w)
  with
  | (inl e, w') => db w' = db w /\ status_code e = 500%Z
  | (inr _, w') =>
      exists p,
        ai_predictions_risk (db w') = ai_predictions_risk (db w) ++ [p]
  end.
Proof.
  pose proof (default_path_score env investor horizon include_trend w) as H.
  destruct (assess_investor_default_risk env investor horizon include_trend w)
    as [[e|r] w']; cbn [as_http].
  - split; [exact H|reflexivity].
  - destruct H as (p & q & H & _). exists p. exact H.
Qed.

Lemma as_http_fund env fund w :
  match as_http FundRiskResult (assess_fund_performance_risk env fund None w)
  with
  | (inl e, w') => db w' = db w /\ status_code e = 500%Z
  | (inr _, w') =>
      exists p,
        ai_predictions_risk (db w') = ai_predictions_risk (db w) ++ [p]
  end.
Proof.
  pose proof (fund_path_score env fund None w) as H.
  destruct (assess_fund_performance_risk env fund None w)
    as [[e|r] w']; cbn [as_http].
  - split; [exact H|reflexivity].
  - destruct H as (p & q & H & _). exists p. exact H.
Qed.

(** X22: a request to the risk-assessment route adds exactly one row to the
    predictions table when it is answered, and none when it fails; a
    failure is a 400 or a 500. *)
Theorem assess_risk_writes_only_on_success env request w :
  match assess_risk env request w with
  | (inl e, w') =>
      db w' = db w /\ (status_code e = 400%Z \/ status_code e = 500%Z)
  | (inr _, w') =>
      exists p,
        ai_predictions_risk (db w') = ai_predictions_risk (db w) ++ [p]
  end.
Proof.
  unfold assess_risk.
  destruct (String.eqb (req_risk_type request) "DEFAULT_RISK").
  - destruct (nonempty_id (req_investor_id request)) as [investor|].
    + pose proof (as_http_default env investor (req_risk_horizon request)
                    (req_include_trend request) w) as H.
      destruct (as_http DefaultRiskResult _) as [[e|r] w'];
        [destruct H; split; [assumption|now right]|exact H].
    + split; [reflexivity|now left].
  - destruct (String.eqb (req_risk_type request) "FUND_PERFORMANCE_RISK").
    + destruct (nonempty_id (req_fund_id request)) as [fund|].
      * pose proof (as_http_fund env fund w) as H.
        destruct (as_http FundRiskResult _) as [[e|r] w'];
          [destruct H; split; [assumption|now right]|exact H].
      * split; [reflexivity|now left].
    + split; [reflexivity|now left].
Qed.

(** X23: a malformed request (unsupported risk type, or the investor or
    fund id its risk type needs missing or empty) is answered with a 400
    before the service is called: session and generator are untouched.
    Every other failure is a 500. *)
Theorem assess_risk_bad_request env request w :
  (malformed request ->
   exists msg,
     assess_risk env request w
     = (inl {| status_code := 400; detail := msg |}, w))
  /\ (~ malformed request ->
      forall e w', assess_risk env request w = (inl e, w') ->
                   status_code e = 500%Z).
Proof.
  unfold malformed, assess_risk.
  destruct (String.eqb_spec (req_risk_type request) "DEFAULT_RISK") as [E1|N1].
  - destruct (nonempty_id (req_investor_id request)) as [investor|] eqn:Ei.
    + split.
      * intros [[H _]|[[_ H]|[H _]]]; try congruence;
          rewrite E1 in H; discriminate H.
      * intros _ e w' H.
        pose proof (as_http_default env investor (req_risk_horizon request)
                      (req_include_trend request) w) as Hh.
        rewrite H in Hh. apply Hh.
    + split; [intros _; eexists; reflexivity|].
      intro H. exfalso. apply H. right. left. split; [exact E1|reflexivity].
  - destruct (String.eqb_spec (req_risk_type request) "FUND_PERFORMANCE_RISK")
      as [E2|N2].
    + destruct (nonempty_id (req_fund_id request)) as [fund|] eqn:Ef.
      * split.
        -- intros [[_ H]|[[H _]|[_ H]]]; congruence.
        -- intros _ e w' H.
           pose proof (as_http_fund env fund w) as Hh.
           rewrite H in Hh. apply Hh.
      * split; [intros _; eexists; reflexivity|].
        intro H. exfalso. apply H. right. right. split; [exact E2|reflexivity].
    + split; [intros _; eexists; reflexivity|].
      intro H. exfalso. apply H. left. split; assumption.
Qed.

Lemma assess_risk_bad_request_witness :
  malformed (default_risk_request (Some ""))
  /\ exists msg,
       assess_risk toy_env (default_risk_request (Some "")) scenario_world
       = (inl {| status_code := 400; detail := msg |}, scenario_world).
Proof.
  assert (H : malformed (default_risk_request (Some ""))).
  { right. left. split; reflexivity. }
  split; [exact H|].
  apply (assess_risk_bad_request toy_env (default_risk_request (Some ""))
           scenario_world). exact H.
Defined.

(** X24: a well-formed default-risk request made while no production
    default-risk model is registered is answered with a 500 whose detail is
    the service's message, and changes nothing. *)
Theorem assess_risk_missing_model env request investor w :
  req_risk_type request = "DEFAULT_RISK" ->
  nonempty_id (req_investor_id request) = Some investor ->
  (forall m, In m (ai_models (db w)) ->
             model_id m = default_risk_model_id -> status m <> "PRODUCTION") ->
  assess_risk env request w
  = (inl {| status_code := 500;
            detail := "Default risk model DEFAULT_RISK_NN_V2.3 not found" |},
     w).
Proof.
  intros Ht Hi Hm. apply find_production_model_none in Hm.
  unfold assess_risk. rewrite Ht, Hi. cbn [String.eqb Ascii.eqb Bool.eqb].
  unfold assess_investor_default_risk, bind, query. rewrite Hm. reflexivity.
Qed.

Lemma assess_risk_missing_model_witness :
  assess_risk toy_env (default_risk_request (Some "INV-1")) unregistered_world
  = (inl {| status_code := 500;
            detail := "Default risk model DEFAULT_RISK_NN_V2.3 not found" |},
     unregistered_world).
Proof.
  apply (assess_risk_missing_model toy_env
           (default_risk_request (Some "INV-1")) "INV-1" unregistered_world).
  - reflexivity.
  - reflexivity.
  - cbn. intros m [].
Defined.

(** ** What a recorded row and its response agree on *)

Lemma risk_factors_nonempty f : _identify_risk_factors f <> [].
Proof.
  unfold _identify_risk_factors. repeat case_ltb; cbn; discriminate.
Qed.

(** X25: the row recorded by a default-risk assessment is coherent with
    itself and with the response: its tier is the tier of its probability,
    the response repeats its score, probability and tier, the requested
    horizon is stored as given (it is not validated), its factor and
    recommendation lists are not empty, and with [include_trend] off it
    stores no previous score, trend STABLE and magnitude 0. *)
Theorem default_row_coherent env investor horizon include_trend w :
  match assess_investor_default_risk env investor horizon include_trend w with
  | (inr response, w') =>
      exists p q,
        ai_predictions_risk (db w') = ai_predictions_risk (db w) ++ [p]
        /\ risk_probability p = Fin q
        /\ rp_risk_tier p = Some (_calculate_risk_tier q)
        /\ dr_default_probability response = q
        /\ dr_risk_tier response = _calculate_risk_tier q
        /\ dr_risk_score response = risk_score p
        /\ investor_id p = Some investor
        /\ risk_horizon p = horizon
        /\ prediction_timestamp p = utcnow env
        /\ top_risk_factors p <> []
        /\ recommended_actions p <> []
        /\ (include_trend = false ->
            previous_risk_score p = None
            /\ rp_risk_trend p = Some STABLE
            /\ trend_magnitude p = Some 0%Z)
  | (inl _, _) => True
  end.
Proof.
  unfold assess_investor_default_risk, bind, query.
  destruct (find_production_model (db w) default_risk_model_id) as [model|];
    [|exact I].
  rewrite predict_default_risk_eq.
  set (features := _extract_risk_features (db w) investor).
  set (raw := raw_score features).
  pose proof (risk_factors_nonempty features) as Hf.
  pose proof (recommendations_nonempty
                (_calculate_risk_tier (raw / 100 * 0.25))
                (_identify_risk_factors features)) as Hr.
  destruct include_trend; unfold ret, lift, raise; simpl.
  1: destruct (_calculate_risk_trend (db w) investor (Py.int raw)) as [pv tr].
  all: destruct (_calculate_loss_exposure (db w) investor (raw / 100 * 0.25));
    simpl; [exact I|].
  all: eexists; eexists; split; [reflexivity|].
  all: cbn [risk_probability rp_risk_tier risk_score investor_id risk_horizon
            prediction_timestamp top_risk_factors recommended_actions
            previous_risk_score rp_risk_trend trend_magnitude].
  all: repeat (split; [first [reflexivity | exact Hf | exact Hr]|]).
  - intro H. discriminate H.
  - reflexivity.
Qed.

(** ** The fund response *)

Lemma scenarios_or_default_nonempty scenarios :
  scenarios_or_default scenarios <> [].
Proof. destruct scenarios as [[|s l]|]; discriminate. Qed.

(** X26: a fund assessment that succeeds reports one scenario entry per
    requested name, in order, and never an empty analysis: an omitted or
    empty request is replaced by the four standard names.  It reports the
    three fixed stress tests, and the row it records keeps the response's
    VaR, CVaR, volatility and drawdown as its contributing metrics. *)
Theorem fund_response_shape env fund scenarios w :
  match assess_fund_performance_risk env fund scenarios w with
  | (inr response, w') =>
      map scenario (fr_scenario_analysis response)
      = scenarios_or_default scenarios
      /\ fr_scenario_analysis response <> []
      /\ ((scenarios = None \/ scenarios = Some []) ->
          map scenario (fr_scenario_analysis response) = standard_scenarios)
      /\ map test (fr_stress_tests response)
         = ["2008_FINANCIAL_CRISIS"; "INTEREST_RATE_SHOCK"; "LIQUIDITY_CRISIS"]
      /\ fr_fund_id response = fund
      /\ exists p,
           ai_predictions_risk (db w') = ai_predictions_risk (db w) ++ [p]
           /\ fund_id p = Some fund
           /\ investor_id p = None
           /\ recommended_actions p <> []
           /\ contributing_metrics p
              = Some {| cm_var_95 := rm_var_95 (fr_risk_metrics response);
                        cm_cvar_95 := rm_cvar_95 (fr_risk_metrics response);
                        cm_volatility := rm_volatility (fr_risk_metrics response);
                        cm_max_drawdown :=
                          rm_max_drawdown (fr_risk_metrics response) |}
  | (inl _, _) => True
  end.
Proof.
  unfold assess_fund_performance_risk, bind, query.
  destruct (find_production_model (db w) fund_risk_model_id) as [model|];
    [|exact I].
  rewrite simulator_spec.
  change (Py.ltb (ff_volatility (_extract_fund_features fund)) 0) with false.
  cbv iota.
  destruct (monte_carlo_summary _ _) as [e|mc]; [exact I|].
  unfold lift.
  destruct (_calculate_var (np env) (mc_returns mc) 0.95); [exact I|].
  destruct (_calculate_var (np env) (mc_returns mc) 0.99); [exact I|].
  destruct (_calculate_cvar (np env) (mc_returns mc) 0.95); [exact I|].
  destruct (_calculate_sharpe_ratio mc); [exact I|].
  destruct (_calculate_sortino_ratio (np env) mc); [exact I|].
  destruct (mc_prob_positive mc) as [pp|] eqn:Epp; cbn [fsub fmul fint];
    [|exact I].
  unfold db_add_commit, ret.
  cbn [db rng ai_predictions_risk fr_scenario_analysis fr_stress_tests
       fr_fund_id fr_risk_metrics].
  pose proof (scenarios_or_default_nonempty scenarios) as Hne.
  assert (Hlabels : map scenario
            (_run_scenario_analysis (_extract_fund_features fund)
               (scenarios_or_default scenarios))
            = scenarios_or_default scenarios).
  { unfold _run_scenario_analysis. rewrite map_map. cbn [scenario].
    apply map_id. }
  split; [exact Hlabels|]. split.
  { intro E. rewrite E in Hlabels. cbn in Hlabels. congruence. }
  split.
  { intros [->| ->]; reflexivity. }
  split; [reflexivity|]. split; [reflexivity|].
  eexists. split; [reflexivity|].
  cbn [fund_id investor_id recommended_actions contributing_metrics
       rm_var_95 rm_cvar_95 rm_volatility rm_max_drawdown].
  split; [reflexivity|]. split; [reflexivity|].
  split; [|reflexivity].
  match goal with
  | |- _generate_fund_risk_recommendations ?m <> [] =>
      unfold _generate_fund_risk_recommendations;
      destruct (fltb (rm_sharpe_ratio m) (Fin 0.5)),
        (fltb (rm_max_drawdown m) (Fin (-0.20))),
        (fltb (rm_probability_positive_return m) (Fin 0.75)); discriminate
  end.
Qed.

(** ** Frame *)

(** X27: neither assessment ever changes the model registry or the feature
    store, whatever its outcome, and the default-risk assessment never
    touches the process-wide random generator. *)
Theorem assessments_frame env w :
  (forall investor horizon include_trend,
     let w' := snd (assess_investor_default_risk env investor horizon
                      include_trend w) in
     ai_models (db w') = ai_models (db w)
     /\ feature_store (db w') = feature_store (db w)
     /\ rng w' = rng w)
  /\ (forall fund scenarios,
        let w' := snd (assess_fund_performance_risk env fund scenarios w) in
        ai_models (db w') = ai_models (db w)
        /\ feature_store (db w') = feature_store (db w)).
Proof.
  split.
  - intros investor horizon include_trend. cbv zeta.
    unfold assess_investor_default_risk, bind, query.
    destruct (find_production_model (db w) default_risk_model_id) as [model|];
      [|repeat split].
    rewrite predict_default_risk_eq.
    set (raw := raw_score (_extract_risk_features (db w) investor)).
    destruct include_trend; unfold ret, lift, raise; simpl.
    1: destruct (_calculate_risk_trend (db w) investor (Py.int raw)) as [pv tr].
    all: destruct (_calculate_loss_exposure (db w) investor (raw / 100 * 0.25));
      simpl; repeat split.
  - intros fund scenarios. cbv zeta.
    unfold assess_fund_performance_risk, bind, query.
    destruct (find_production_model (db w) fund_risk_model_id) as [model|];
      [|repeat split].
    rewrite simulator_spec.
    change (Py.ltb (ff_volatility (_extract_fund_features fund)) 0) with false.
    cbv iota.
    destruct (monte_carlo_summary _ _) as [e|mc]; [repeat split|].
    unfold lift.
    destruct (_calculate_var (np env) (mc_returns mc) 0.95); [repeat split|].
    destruct (_calculate_var (np env) (mc_returns mc) 0.99); [repeat split|].
    destruct (_calculate_cvar (np env) (mc_returns mc) 0.95); [repeat split|].
    destruct (_calculate_sharpe_ratio mc); [repeat split|].
    destruct (_calculate_sortino_ratio (np env) mc); [repeat split|].
    destruct (mc_prob_positive mc) as [pp|]; cbn [fsub fmul fint];
      repeat split.
Qed.

(** ** Magnitude against a previous score of zero *)

(** X28: the trend magnitude is guarded by the truth value of the previous
    score.  When the assessment the trend is computed against scored 0 and
    the current score exceeds 5, the recorded trend is DETERIORATING but the
    recorded magnitude, and the one in the response, is 0. *)
Theorem zero_previous_score_hides_magnitude env investor horizon w model prev :
  find_production_model (db w) default_risk_model_id = Some model ->
  (forall r, latest_feature_record (db w) "INVESTOR" investor = Some r ->
             fs_current_balance r <> None) ->
  previous_prediction_query (db w) investor = Some prev ->
  risk_score prev = 0%Z ->
  (5 < snd (_predict_default_risk (_extract_risk_features (db w) investor)))%Z ->
  exists response w' p,
    assess_investor_default_risk env investor horizon true w
    = (inr response, w')
    /\ ai_predictions_risk (db w') = ai_predictions_risk (db w) ++ [p]
    /\ previous_risk_score p = Some 0%Z
    /\ rp_risk_trend p = Some DETERIORATING
    /\ trend_magnitude p = Some 0%Z
    /\ rt_magnitude (dr_risk_trend response) = 0%Z.
Proof.
  intros Hmodel Hbal Hprev Hzero Hscore.
  rewrite predict_default_risk_eq in Hscore. cbn [snd] in Hscore.
  unfold assess_investor_default_risk, bind, query.
  rewrite Hmodel, predict_default_risk_eq.
  set (features := _extract_risk_features (db w) investor) in *.
  set (raw := raw_score features) in *.
  assert (Hexp : exists x,
            _calculate_loss_exposure (db w) investor (raw / 100 * 0.25) = inr x).
  { unfold _calculate_loss_exposure.
    destruct (latest_feature_record (db w) "INVESTOR" investor) as [r|] eqn:E.
    - specialize (Hbal r eq_refl).
      destruct (fs_current_balance r); [|congruence]. eexists. reflexivity.
    - eexists. reflexivity. }
  destruct Hexp as [x Hx].
  assert (Htrend : _calculate_risk_trend (db w) investor (Py.int raw)
                   = (0%Z, DETERIORATING)).
  { unfold _calculate_risk_trend. rewrite Hprev, Hzero.
    rewrite Z.sub_0_r.
    destruct (Z.ltb_spec 5 (Py.int raw)); [reflexivity|lia]. }
  unfold ret, lift, raise. simpl. rewrite Htrend, Hx. simpl.
  eexists; eexists; eexists. split; [reflexivity|].
  split; [reflexivity|]. repeat split.
Qed.

Lemma zero_previous_score_hides_magnitude_witness :
  exists response w' p,
    assess_investor_default_risk toy_env "INV-1" "12M" true zero_then_ten
    = (inr response, w')
    /\ ai_predictions_risk (db w')
       = ai_predictions_risk (db zero_then_ten) ++ [p]
    /\ previous_risk_score p = Some 0%Z
    /\ rp_risk_trend p = Some DETERIORATING
    /\ trend_magnitude p = Some 0%Z
    /\ rt_magnitude (dr_risk_trend response) = 0%Z.
Proof.
  apply (zero_previous_score_hides_magnitude toy_env "INV-1" "12M"
           zero_then_ten production_default_model
           (prior_assessment 1690000000 0)).
  - reflexivity.
  - intros r H. vm_compute in H. inversion H. discriminate.
  - reflexivity.
  - reflexivity.
  - vm_compute. reflexivity.
Defined.
